(** * i3pyblocks: the block-aggregation runtime ([i3pyblocks/core.py])

    A shallow embedding of [Module], [PollingModule] and [Runner], and the
    properties of the runtime stated over it.

    Python data is modelled as follows.
    - [str] is [string]; a character is a code point below 256.
    - [Optional[T]] is [option T], [None] being Python's [None].
    - A [dict] is an association list in insertion order (Python dictionaries
      iterate in insertion order, and the writer depends on it); the code
      never builds a dictionary with a repeated key.
    - An exception is a value of [Exception] carrying [str(e)]; a call that
      can raise returns the state it left behind together with an optional
      exception.  Only instances of Python's [Exception] class are modelled,
      these being what the two [except Exception] clauses of the file catch.
    - A coroutine scheduled on the event loop is a task with a status, and
      the event loop is an interleaving of task steps. *)

From Stdlib Require Import String Ascii List ZArith Bool Lia Arith.
From Stdlib Require Import Decimal DecimalString.
Import ListNotations.

Open Scope string_scope.

(** ** Characters that cannot be written inside a string literal *)

Definition dq : string := String (ascii_of_nat 34) EmptyString.
Definition nl : string := String (ascii_of_nat 10) EmptyString.

(** ** Python helpers *)

(** Truthiness of an [Optional[str]]: [None] and the empty string are falsy. *)
Definition truthy (o : option string) : bool :=
  match o with
  | None => false
  | Some s => negb (String.eqb s "")
  end.

(** [o or d] for an [Optional[str]] [o]. *)
Definition or_else (o : option string) (d : string) : string :=
  match o with
  | Some s => if String.eqb s "" then d else s
  | None => d
  end.

(** [",".join(l)] *)
Fixpoint join (sep : string) (l : list string) : string :=
  match l with
  | [] => ""
  | [x] => x
  | x :: rest => x ++ sep ++ join sep rest
  end.

(** ** Snapshots *)

(** [Union[str, int, bool]] *)
Inductive pyval : Type :=
| VStr (s : string)
| VInt (z : Z)
| VBool (b : bool).

(** [Dict[str, Optional[Union[str, int, bool]]]] *)
Definition state : Type := list (string * option pyval).

(** [d.get(k)] on an insertion-ordered dictionary. *)
Fixpoint dict_get {V : Type} (k : string) (d : list (string * V)) : option V :=
  match d with
  | [] => None
  | (k', v) :: rest => if String.eqb k k' then Some v else dict_get k rest
  end.

Definition keys {V : Type} (d : list (string * V)) : list string := map fst d.
Definition values {V : Type} (d : list (string * V)) : list V := map snd d.

(** No key occurs twice. *)
Fixpoint nodupb (l : list string) : bool :=
  match l with
  | [] => true
  | k :: rest => negb (existsb (String.eqb k) rest) && nodupb rest
  end.

Module Align.
Definition CENTER : string := "center".
Definition RIGHT : string := "right".
Definition LEFT : string := "left".
End Align.

Module Markup.
Definition NONE : string := "none".
Definition PANGO : string := "pango".
End Markup.

(** ** class Module: the data attributes of a block

    [Module] is a keyword of Rocq, so the record is [Module_]. *)

Record Module_ : Type := mkModule {
  name : string;
  instance : option string;
  _color : option string;
  _background : option string;
  _border : option string;
  _border_top : option string;
  _border_right : option string;
  _border_bottom : option string;
  _border_left : option string;
  _min_width : option Z;
  _align : option string;
  _urgent : option bool;
  _separator : option bool;
  _separator_block_width : option Z;
  _markup : option string;
  _short_text : option string;
  _full_text : string;
  _state : state
}.

Definition ostr (o : option string) : option pyval := option_map VStr o.
Definition oint (o : option Z) : option pyval := option_map VInt o.
Definition obool (o : option bool) : option pyval := option_map VBool o.

(** [getattr(self, key)] for the attributes [update] asks for.  Any other
    name is never requested by the code of this file. *)
Definition getattr (self : Module_) (key : string) : option pyval :=
  if String.eqb key "_color" then ostr (_color self)
  else if String.eqb key "_background" then ostr (_background self)
  else if String.eqb key "_border" then ostr (_border self)
  else if String.eqb key "_border_top" then ostr (_border_top self)
  else if String.eqb key "_border_right" then ostr (_border_right self)
  else if String.eqb key "_border_bottom" then ostr (_border_bottom self)
  else if String.eqb key "_border_left" then ostr (_border_left self)
  else if String.eqb key "_min_width" then oint (_min_width self)
  else if String.eqb key "_align" then ostr (_align self)
  else if String.eqb key "_urgent" then obool (_urgent self)
  else if String.eqb key "_separator" then obool (_separator self)
  else if String.eqb key "_separator_block_width"
       then oint (_separator_block_width self)
  else if String.eqb key "_markup" then ostr (_markup self)
  else if String.eqb key "_short_text" then ostr (_short_text self)
  else if String.eqb key "_full_text" then Some (VStr (_full_text self))
  else None.

Definition _get_value_or_default
    (self : Module_) (value : option pyval) (key : string) : option pyval :=
  match value with
  | Some v => Some v
  | None => getattr self key
  end.

(** The arguments of [update]; [update_defaults] holds the defaults of the
    signature. *)
Record UpdateArgs : Type := mkUpdateArgs {
  full_text : string;
  short_text : option string;
  color : option string;
  background : option string;
  border : option string;
  border_top : option string;
  border_right : option string;
  border_bottom : option string;
  border_left : option string;
  min_width : option Z;
  align : option string;
  urgent : option bool;
  separator : option bool;
  separator_block_width : option Z;
  markup : option string
}.

Definition update_defaults : UpdateArgs :=
  mkUpdateArgs "" None None None None None None None None None None None None
               None None.

Definition set_state (self : Module_) (s : state) : Module_ :=
  mkModule (name self) (instance self) (_color self) (_background self)
           (_border self) (_border_top self) (_border_right self)
           (_border_bottom self) (_border_left self) (_min_width self)
           (_align self) (_urgent self) (_separator self)
           (_separator_block_width self) (_markup self) (_short_text self)
           (_full_text self) s.

Definition update (self : Module_) (a : UpdateArgs) : Module_ :=
  set_state self
    [ ("name", Some (VStr (name self)));
      ("instance", ostr (instance self));
      ("full_text", Some (VStr (full_text a)));
      ("short_text", ostr (short_text a));
      ("color", _get_value_or_default self (ostr (color a)) "_color");
      ("background",
        _get_value_or_default self (ostr (background a)) "_background");
      ("border", _get_value_or_default self (ostr (border a)) "_border");
      ("border_top",
        _get_value_or_default self (ostr (border_top a)) "_border_top");
      ("border_right",
        _get_value_or_default self (ostr (border_right a)) "_border_right");
      ("border_left",
        _get_value_or_default self (ostr (border_left a)) "_border_left");
      ("border_bottom",
        _get_value_or_default self (ostr (border_bottom a)) "_border_bottom");
      ("min_width",
        _get_value_or_default self (oint (min_width a)) "_min_width");
      ("align", _get_value_or_default self (ostr (align a)) "_align");
      ("urgent", _get_value_or_default self (obool (urgent a)) "_urgent");
      ("separator",
        _get_value_or_default self (obool (separator a)) "_separator");
      ("separator_block_width",
        _get_value_or_default self (oint (separator_block_width a))
                              "_separator_block_width");
      ("markup", _get_value_or_default self (ostr (markup a)) "_markup") ].

(** [{k: v for k, v in self._state.items() if v is not None}] *)
Fixpoint drop_none (s : state) : list (string * pyval) :=
  match s with
  | [] => []
  | (k, Some v) :: rest => (k, v) :: drop_none rest
  | (_, None) :: rest => drop_none rest
  end.

Definition result (self : Module_) : list (string * pyval) :=
  drop_none (_state self).

(** The keyword arguments of [Module.__init__]; [init_defaults] holds the
    defaults of the signature. *)
Record InitArgs : Type := mkInitArgs {
  i_name : option string;
  i_instance : option string;
  i_color : option string;
  i_background : option string;
  i_border : option string;
  i_border_top : option string;
  i_border_right : option string;
  i_border_bottom : option string;
  i_border_left : option string;
  i_min_width : option Z;
  i_align : option string;
  i_urgent : option bool;
  i_separator : option bool;
  i_separator_block_width : option Z;
  i_markup : option string
}.

Definition init_defaults : InitArgs :=
  mkInitArgs None (Some "default") None None None None None None None None
             None (Some false) (Some true) None (Some Markup.NONE).

(** [Module.__init__]; [cls] is [self.__class__.__name__]. *)
Definition __init__ (cls : string) (a : InitArgs) : Module_ :=
  let self :=
    mkModule (match i_name a with
              | Some n => if truthy (i_name a) then n else cls
              | None => cls
              end)
             (i_instance a) (i_color a) (i_background a) (i_border a)
             (i_border_top a) (i_border_right a) (i_border_bottom a)
             (i_border_left a) (i_min_width a) (i_align a) (i_urgent a)
             (i_separator a) (i_separator_block_width a) (i_markup a)
             None "" [] in
  update self update_defaults.

(** The style defaults a block holds, in the order of the signature of
    [__init__]. *)
Definition defaults (self : Module_) :=
  (_color self, _background self, _border self, _border_top self,
   _border_right self, _border_bottom self, _border_left self,
   _min_width self, _align self, _urgent self, _separator self,
   _separator_block_width self, _markup self).

(** The style values given to [__init__], in the same order. *)
Definition constructed (a : InitArgs) :=
  (i_color a, i_background a, i_border a, i_border_top a,
   i_border_right a, i_border_bottom a, i_border_left a,
   i_min_width a, i_align a, i_urgent a, i_separator a,
   i_separator_block_width a, i_markup a).

(** A value passed to [update] when there is one, the value of the
    construction otherwise. *)
Definition override {A : Type} (passed at_construction : option A) : option A :=
  match passed with
  | Some v => Some v
  | None => at_construction
  end.

(** A block after its construction and any number of updates. *)
Definition updated (cls : string) (ia : InitArgs) (us : list UpdateArgs)
  : Module_ :=
  fold_left update us (__init__ cls ia).

(** ** json.dumps on a [result()] dictionary

    The encoder of the standard library with its default settings:
    [ensure_ascii=True], separators [", "] and [": "]. *)

Definition hex_digit (n : nat) : ascii :=
  nth n (list_ascii_of_string "0123456789abcdef") "0"%char.

(** One character of a string literal: the quote and the backslash are
    escaped, the usual control characters have short escapes, anything else
    outside [' '..'~'] is written [\u00XX]. *)
Definition escape_char (c : ascii) : string :=
  let n := nat_of_ascii c in
  if Nat.eqb n 34 then "\" ++ dq
  else if Nat.eqb n 92 then "\\"
  else if Nat.eqb n 10 then "\n"
  else if Nat.eqb n 13 then "\r"
  else if Nat.eqb n 9 then "\t"
  else if Nat.eqb n 12 then "\f"
  else if Nat.eqb n 8 then "\b"
  else if (Nat.ltb n 32) || (Nat.ltb 126 n)
       then "\u00" ++ String (hex_digit (n / 16))
                             (String (hex_digit (n mod 16)) "")
  else String c "".

Fixpoint escape (s : string) : string :=
  match s with
  | EmptyString => ""
  | String c rest => escape_char c ++ escape rest
  end.

Definition dumps_str (s : string) : string := dq ++ escape s ++ dq.

(** [str(z)] for an integer. *)
Definition str_of_Z (z : Z) : string := NilZero.string_of_int (Z.to_int z).

Definition dumps_value (v : pyval) : string :=
  match v with
  | VStr s => dumps_str s
  | VInt z => str_of_Z z
  | VBool true => "true"
  | VBool false => "false"
  end.

Definition dumps_item (kv : string * pyval) : string :=
  dumps_str (fst kv) ++ ": " ++ dumps_value (snd kv).

Definition json_dumps (d : list (string * pyval)) : string :=
  "{" ++ join ", " (map dumps_item d) ++ "}".

(** ** Exceptions *)

Record Exception : Type := mkException {
  exc_class : string;
  exc_str : string        (* str(e) *)
}.

Definition ValueError (msg : string) : Exception :=
  mkException "ValueError" msg.
Definition AttributeError (msg : string) : Exception :=
  mkException "AttributeError" msg.

(** [str(o)] inside an f-string, for an [Optional[str]]. *)
Definition fmt (o : option string) : string :=
  match o with
  | Some s => s
  | None => "None"
  end.

(** ** Click events *)

(** The keyword arguments handed to [click_handler]: what [.get] returns
    for each field of the parsed event, [None] when the field is missing. *)
Record ClickArgs : Type := mkClickArgs {
  x : option Z;
  y : option Z;
  button : option Z;
  relative_x : option Z;
  relative_y : option Z;
  width : option Z;
  height : option Z;
  modifiers : option (list string)
}.

(** A parsed click event, seen through the [.get] calls of [click_event]. *)
Record ClickEvent : Type := mkClickEvent {
  ce_name : option string;
  ce_instance : option string;
  ce_args : ClickArgs
}.

(** ** Tasks of the event loop *)

Inductive task : Type :=
| write_task
| click_task
| loop_task (key : string).

Definition task_eqb (a b : task) : bool :=
  match a, b with
  | write_task, write_task => true
  | click_task, click_task => true
  | loop_task k, loop_task k' => String.eqb k k'
  | _, _ => false
  end.

(** A task is pending until its coroutine returns or raises, or until it is
    cancelled. *)
Inductive status : Type := Pending | Finished | Cancelled.

Definition tasklist : Type := list (task * status).

Fixpoint task_status (t : task) (ts : tasklist) : option status :=
  match ts with
  | [] => None
  | (t', s) :: rest => if task_eqb t t' then Some s else task_status t rest
  end.

Fixpoint set_status (t : task) (s : status) (ts : tasklist) : tasklist :=
  match ts with
  | [] => []
  | (t', s') :: rest =>
      (if task_eqb t t' then (t', s) else (t', s')) :: set_status t s rest
  end.

(** [task.cancel()] on every task: a task that is done stays as it is. *)
Definition cancel_all (ts : tasklist) : tasklist :=
  map (fun ts' => match snd ts' with
                  | Pending => (fst ts', Cancelled)
                  | _ => ts'
                  end) ts.

(** What one resumption of a coroutine ends with: it suspends at an
    [await], returns, or raises. *)
Inductive outcome : Type :=
| Suspended
| Returned
| Raised (e : Exception).

Definition pending_after (o : outcome) : bool :=
  match o with
  | Suspended => true
  | _ => false
  end.

Section Runtime.

(** Everything outside the blocks that their code reads or changes:
    sensors, clocks, the attributes a subclass adds. *)
Variable World : Type.

(** [json.loads] followed by the [.get] calls of [click_event]: the parsed
    event, or the exception raised on bytes that are not a JSON object. *)
Variable json_loads : string -> ClickEvent + Exception.

(** [signal.signal(signum, handler)], as far as it can fail: the exception
    it raises for a number it refuses ([ValueError] for a number out of
    range, [OSError] for a signal that cannot be caught), [None] for a
    number whose handler it installs.  Which numbers are refused is the
    platform's business. *)
Variable signal_signal : Z -> option Exception.

(** The body of a method written by a subclass: it acts on the world and
    on the attributes of [self], and may raise after having changed
    them. *)
Definition code : Type :=
  World -> Module_ -> World * Module_ * option Exception.

(** A coroutine method: one resumption, up to its next [await] or to its
    end. *)
Definition coroutine : Type :=
  World -> Module_ -> World * Module_ * outcome.

(** An instance of a concrete subclass of [Module]: its attributes and
    the three abstract methods. *)
Record Block : Type := mkBlock {
  attrs : Module_;
  click_handler : ClickArgs -> code;
  signal_handler : Z -> code;
  loop : coroutine
}.

Definition set_attrs (b : Block) (m : Module_) : Block :=
  mkBlock m (click_handler b) (signal_handler b) (loop b).

(** *** class PollingModule *)

Record PollingModule : Type := mkPollingModule {
  base : Module_;
  sleep : Z;
  run : code              (* abstract: supplied by the subclass *)
}.

Definition PollingModule_click_handler
    (self : PollingModule) (_ : ClickArgs) : code :=
  run self.

Definition PollingModule_signal_handler
    (self : PollingModule) (_ : Z) : code :=
  run self.

(** The arguments of the [update] call of the [except] clause:
    [update(f"Exception in {self.name}: {e}", urgent=True)]. *)
Definition exception_update (self : Module_) (e : Exception) : UpdateArgs :=
  mkUpdateArgs ("Exception in " ++ name self ++ ": " ++ exc_str e)
               None None None None None None None None None None
               (Some true) None None None.

(** One resumption of [PollingModule.loop]: an iteration of [while True]
    up to the [await asyncio.sleep], or the [except] clause, after which
    the coroutine returns. *)
Definition PollingModule_loop (self : PollingModule) : coroutine :=
  fun w m =>
    match run self w m with
    | (w', m', None) => (w', m', Suspended)
    | (w', m', Some e) => (w', update m' (exception_update m' e), Returned)
    end.

Definition polling (self : PollingModule) : Block :=
  mkBlock (base self)
          (PollingModule_click_handler self)
          (PollingModule_signal_handler self)
          (PollingModule_loop self).

(** *** class Runner

    The [Runner] object together with the process state its methods touch:
    the world, the standard output and the installed signal handlers. *)
Record Runner : Type := mkRunner {
  runner_sleep : Z;
  modules : list (string * Block);
  tasks : tasklist;
  handlers : list (Z * string);   (* signal number, key of the module *)
  stdout : string;
  world : World
}.

Definition set_modules (r : Runner) (ms : list (string * Block)) : Runner :=
  mkRunner (runner_sleep r) ms (tasks r) (handlers r) (stdout r) (world r).
Definition set_tasks (r : Runner) (ts : tasklist) : Runner :=
  mkRunner (runner_sleep r) (modules r) ts (handlers r) (stdout r) (world r).
Definition set_handlers (r : Runner) (hs : list (Z * string)) : Runner :=
  mkRunner (runner_sleep r) (modules r) (tasks r) hs (stdout r) (world r).
Definition set_stdout (r : Runner) (out : string) : Runner :=
  mkRunner (runner_sleep r) (modules r) (tasks r) (handlers r) out (world r).
Definition set_world (r : Runner) (w : World) : Runner :=
  mkRunner (runner_sleep r) (modules r) (tasks r) (handlers r) (stdout r) w.

(** [Runner.__init__]: the writer and the reader are scheduled at once. *)
Definition Runner_init (sleep : Z) (w : World) : Runner :=
  mkRunner sleep [] [(write_task, Pending); (click_task, Pending)] [] "" w.

Definition _clean_up (r : Runner) : Runner :=
  set_tasks r (cancel_all (tasks r)).

Definition _get_module_key (module : Module_) : string :=
  name module ++ "__" ++ or_else (instance module) "none".

Definition _get_module_from_key
    (r : Runner) (name : option string) (instance : option string)
  : option Block :=
  dict_get (fmt name ++ "__" ++ or_else instance "none") (modules r).

Definition _register_task (r : Runner) (t : task) : Runner :=
  set_tasks r (tasks r ++ [(t, Pending)])%list.

(** The object stored under [key] has been mutated in place. *)
Fixpoint store (key : string) (m : Module_) (ms : list (string * Block))
  : list (string * Block) :=
  match ms with
  | [] => []
  | (k, b) :: rest =>
      (if String.eqb key k then (k, set_attrs b m) else (k, b))
        :: store key m rest
  end.

(** [signal.signal(signum, _handler)]: the handler of the latest call
    replaces the one installed before for that number. *)
Definition install (signum : Z) (key : string) (hs : list (Z * string))
  : list (Z * string) :=
  (signum, key) :: filter (fun h => negb (Z.eqb (fst h) signum)) hs.

Fixpoint handler_of (signum : Z) (hs : list (Z * string)) : option string :=
  match hs with
  | [] => None
  | (n, k) :: rest => if Z.eqb signum n then Some k else handler_of signum rest
  end.

(** The [for] loop of [register_signal]: the first number that
    [signal.signal] refuses ends it with the exception, the handlers
    installed before it staying installed. *)
Fixpoint install_all (key : string) (signums : list Z) (hs : list (Z * string))
  : list (Z * string) * option Exception :=
  match signums with
  | [] => (hs, None)
  | signum :: rest =>
      match signal_signal signum with
      | Some e => (hs, Some e)
      | None => install_all key rest (install signum key hs)
      end
  end.

(** [register_signal]: the runner it leaves behind, and the exception it
    raised, if any. *)
Definition register_signal
    (r : Runner) (key : string) (signums : list Z)
  : Runner * option Exception :=
  match install_all key signums (handlers r) with
  | (hs, e) => (set_handlers r hs, e)
  end.

(** [register_module]: the runner it leaves behind, and the exception it
    raised, if any.  An exception of [register_signal] comes after the
    module was stored and its task made. *)
Definition register_module
    (r : Runner) (module : Block) (signals : list Z)
  : Runner * option Exception :=
  let module_key := _get_module_key (attrs module) in
  if negb (existsb (String.eqb module_key) (keys (modules r))) then
    let r1 := set_modules r (modules r ++ [(module_key, module)])%list in
    let r2 := _register_task r1 (loop_task module_key) in
    match signals with
    | [] => (r2, None)
    | _ => register_signal r2 module_key signals
    end
  else
    (r, Some (ValueError ("Module '" ++ name (attrs module)
                          ++ "' with instance '"
                          ++ fmt (instance (attrs module))
                          ++ "' already exists"))).

(** The line [write_result] writes. *)
Definition tick_line (ms : list (string * Block)) : string :=
  "[" ++ join "," (map (fun b => json_dumps (result (attrs b))) (values ms))
      ++ "]," ++ nl.

Definition write_result (r : Runner) : Runner :=
  set_stdout r (stdout r ++ tick_line (modules r)).

(** [click_event]: the runner it leaves behind, and the exception it
    raised, if any.  Looking up [click_handler] on [None], which is what
    [dict.get] returns for a missing key, raises [AttributeError]. *)
Definition click_event (r : Runner) (raw : string)
  : Runner * option Exception :=
  match json_loads raw with
  | inr e => (r, Some e)
  | inl ev =>
      let key := fmt (ce_name ev) ++ "__" ++ or_else (ce_instance ev) "none" in
      match _get_module_from_key r (ce_name ev) (ce_instance ev) with
      | None =>
          (r, Some (AttributeError
                      "'NoneType' object has no attribute 'click_handler'"))
      | Some module =>
          match click_handler module (ce_args ev) (world r) (attrs module) with
          | (w', m', e) =>
              (set_world (set_modules r (store key m' (modules r))) w', e)
          end
      end
  end.

(** *** The coroutines of the runner, one resumption at a time *)

Definition is_pending (r : Runner) (t : task) : bool :=
  match task_status t (tasks r) with
  | Some Pending => true
  | _ => false
  end.

(** The coroutine of task [t] has returned or raised. *)
Definition finish (r : Runner) (t : task) : Runner :=
  set_tasks r (set_status t Finished (tasks r)).

(** [write_results]: an iteration of [while True], up to the sleep. *)
Definition write_results (r : Runner) : Runner :=
  if is_pending r write_task then write_result r else r.

(** [click_events], once the pipe is connected and the opening line is
    skipped: an iteration of [while True].  [input] is what
    [readuntil(b"}")] returns, [None] when the input ended before a brace
    came (the read then raises).  Any exception leaves the loop through
    the [except] clause, which logs it, and the coroutine returns. *)
Definition click_events (r : Runner) (input : option string) : Runner :=
  if is_pending r click_task then
    match input with
    | None => finish r click_task
    | Some raw =>
        match click_event r raw with
        | (r', Some _) => finish r' click_task
        | (r', None) => write_result r'
        end
    end
  else r.

(** The task made by [asyncio.ensure_future(module.loop())]. *)
Definition resume_loop (r : Runner) (key : string) : Runner :=
  if is_pending r (loop_task key) then
    match dict_get key (modules r) with
    | None => r
    | Some module =>
        match loop module (world r) (attrs module) with
        | (w', m', o) =>
            let r' := set_world (set_modules r (store key m' (modules r))) w' in
            if pending_after o then r' else finish r' (loop_task key)
        end
    end
  else r.

(** The closure [_handler] of [register_signal], for the module stored
    under [key]; an exception of the handler is logged, and nothing is
    written. *)
Definition _handler (r : Runner) (key : string) (signum : Z) : Runner :=
  match dict_get key (modules r) with
  | None => r
  | Some module =>
      match signal_handler module signum (world r) (attrs module) with
      | (w', m', e) =>
          let r' := set_world (set_modules r (store key m' (modules r))) w' in
          match e with
          | None => write_result r'
          | Some _ => r'
          end
      end
  end.

(** What the event loop reacts to. *)
Inductive event : Type :=
| Tick                            (* the sleep of the writer is over *)
| Wake (key : string)             (* the loop of a block is resumed *)
| Input (raw : option string)     (* the reader got its bytes, or the end *)
| Signal (signum : Z).            (* a signal is delivered *)

Definition step (r : Runner) (ev : event) : Runner :=
  match ev with
  | Tick => write_results r
  | Wake key => resume_loop r key
  | Input raw => click_events r raw
  | Signal signum =>
      match handler_of signum (handlers r) with
      | Some key => _handler r key signum
      | None => r
      end
  end.

Definition run_events (r : Runner) (evs : list event) : Runner :=
  fold_left step evs r.

(** ['{"version": 1, "click_events": true}\n[\n'] *)
Definition header : string :=
  "{" ++ dq ++ "version" ++ dq ++ ": 1, "
      ++ dq ++ "click_events" ++ dq ++ ": true}" ++ nl ++ "[" ++ nl.

Definition write_header (r : Runner) : Runner :=
  set_stdout r (stdout r ++ header).

(** [start]: [schedule] is what the event loop went through while
    [asyncio.wait] was waiting. *)
Definition start (r : Runner) (schedule : list event) : Runner :=
  _clean_up (run_events (write_header r) schedule).

(** A setup that registers modules one after the other, as [run.py] does;
    the first exception ends it. *)
Fixpoint register_all (r : Runner) (bs : list (Block * list Z))
  : Runner * option Exception :=
  match bs with
  | [] => (r, None)
  | (b, signals) :: rest =>
      match register_module r b signals with
      | (r', None) => register_all r' rest
      | (r', Some e) => (r', Some e)
      end
  end.

End Runtime.

Arguments code World : clear implicits.
Arguments coroutine World : clear implicits.
Arguments Block World : clear implicits.
Arguments PollingModule World : clear implicits.
Arguments Runner World : clear implicits.
Arguments mkBlock {World} _ _ _ _.
Arguments attrs {World} _.
Arguments click_handler {World} _ _ _ _.
Arguments signal_handler {World} _ _ _ _.
Arguments loop {World} _ _ _.
Arguments set_attrs {World} _ _.
Arguments mkPollingModule {World} _ _ _.
Arguments base {World} _.
Arguments sleep {World} _.
Arguments run {World} _ _ _.
Arguments PollingModule_click_handler {World} _ _ _ _.
Arguments PollingModule_signal_handler {World} _ _ _ _.
Arguments PollingModule_loop {World} _ _ _.
Arguments polling {World} _.
Arguments mkRunner {World} _ _ _ _ _ _.
Arguments runner_sleep {World} _.
Arguments modules {World} _.
Arguments tasks {World} _.
Arguments handlers {World} _.
Arguments stdout {World} _.
Arguments world {World} _.
Arguments set_modules {World} _ _.
Arguments set_tasks {World} _ _.
Arguments set_handlers {World} _ _.
Arguments set_stdout {World} _ _.
Arguments set_world {World} _ _.
Arguments Runner_init {World} _ _.
Arguments _clean_up {World} _.
Arguments _get_module_from_key {World} _ _ _.
Arguments _register_task {World} _ _.
Arguments store {World} _ _ _.
Arguments register_signal {World} _ _ _ _.
Arguments register_module {World} _ _ _ _.
Arguments tick_line {World} _.
Arguments write_result {World} _.
Arguments click_event {World} _ _ _.
Arguments is_pending {World} _ _.
Arguments finish {World} _ _.
Arguments write_results {World} _.
Arguments click_events {World} _ _ _.
Arguments resume_loop {World} _ _.
Arguments _handler {World} _ _ _.
Arguments step {World} _ _ _.
Arguments run_events {World} _ _ _.
Arguments write_header {World} _.
Arguments start {World} _ _ _.
Arguments register_all {World} _ _ _.

(** ** Observing calls

    The methods of a block cannot see the runner.  To count the calls the
    runtime makes, the world is paired with a record of them, which the
    observed method extends each time it is entered. *)

(** [run], counting how many times it is entered. *)
Definition counted {W : Type} (c : code W) : code (nat * W) :=
  fun nw m =>
    match c (snd nw) m with
    | (w', m', e) => ((S (fst nw), w'), m', e)
    end.

(** A method, unchanged, next to a record it does not touch. *)
Definition lift {L W : Type} (c : code W) : code (L * W) :=
  fun lw m =>
    match c (snd lw) m with
    | (w', m', e) => ((fst lw, w'), m', e)
    end.

Definition lift_coroutine {L W : Type} (c : coroutine W) : coroutine (L * W) :=
  fun lw m =>
    match c (snd lw) m with
    | (w', m', o) => ((fst lw, w'), m', o)
    end.

Definition clicklog : Type := list (string * ClickArgs).

(** A polling block whose [run] is counted. *)
Definition counting {W : Type} (self : PollingModule W)
  : PollingModule (nat * W) :=
  mkPollingModule (base self) (sleep self) (counted (run self)).

(** [click_handler] of the block registered under [key], recording each
    call with the arguments it got. *)
Definition logged {W : Type} (key : string) (h : ClickArgs -> code W)
  : ClickArgs -> code (clicklog * W) :=
  fun a lw m =>
    match h a (snd lw) m with
    | (w', m', e) => ((fst lw ++ [(key, a)], w')%list, m', e)
    end.

Definition observe {W : Type} (key : string) (b : Block W)
  : Block (clicklog * W) :=
  mkBlock (attrs b)
          (logged key (click_handler b))
          (fun n => lift (signal_handler b n))
          (lift_coroutine (loop b)).

Definition observe_all {W : Type} (ms : list (string * Block W))
  : list (string * Block (clicklog * W)) :=
  map (fun kb => (fst kb, observe (fst kb) (snd kb))) ms.

(** The registry key as a reading of it that only looks at [None] has it:
    [name + "__" + (instance if instance is not None else "none")]. *)
Definition key_if_not_None (module : Module_) : string :=
  name module ++ "__" ++ match instance module with
                         | Some i => i
                         | None => "none"
                         end.

(** The identity of a block. *)
Definition identity (module : Module_) : string * option string :=
  (name module, instance module).

(** ** Lines of output *)

(** [s] is made of the characters [' '] to ['~'] only. *)
Fixpoint printable (s : string) : bool :=
  match s with
  | EmptyString => true
  | String c rest =>
      Nat.leb 32 (nat_of_ascii c) && Nat.leb (nat_of_ascii c) 126
      && printable rest
  end.

(** One line: no line break but the one that ends it. *)
Definition single_line (line : string) : Prop :=
  exists body, line = body ++ nl /\ printable body = true.

(** A line holding an array of encoded objects, with the comma that
    continues the enclosing array. *)
Definition is_tick_line (line : string) : Prop :=
  single_line line /\
  exists objects : list (list (string * pyval)),
    line = "[" ++ join "," (map json_dumps objects) ++ "]," ++ nl.

Definition concat_lines (lines : list string) : string :=
  fold_right String.append "" lines.

(** The first line of the output, without its line break. *)
Definition header_line : string :=
  "{" ++ dq ++ "version" ++ dq ++ ": 1, "
      ++ dq ++ "click_events" ++ dq ++ ": true}".

(** The key a registration gives a block. *)
Definition key_of {W : Type} (registration : Block W * list Z) : string :=
  _get_module_key (attrs (fst registration)).

(** What the block under [key] currently serializes to. *)
Definition object_at {W : Type} (ms : list (string * Block W)) (key : string)
  : string :=
  match dict_get key ms with
  | Some b => json_dumps (result (attrs b))
  | None => ""
  end.

(** [ms'] holds the objects of [ms], under the same keys and in the same
    order; only their attributes may have changed. *)
Definition same_objects {W : Type} (ms ms' : list (string * Block W)) : Prop :=
  Forall2 (fun kb kb' => fst kb' = fst kb
                         /\ exists m, snd kb' = set_attrs (snd kb) m)
          ms ms'.

(** ** Concrete blocks, used to run the model *)

Module Demo.

(** A block that shows how many times it was refreshed. *)
Definition clock_run : code nat :=
  fun w m =>
    (S w,
     update m (mkUpdateArgs ("tick " ++ str_of_Z (Z.of_nat w))
                            None None None None None None None None None
                            None None None None None),
     None).

(** A block whose data source gives up from its third refresh on. *)
Definition flaky_run : code nat :=
  fun w m =>
    if Nat.leb 2 w
    then (S w, m, Some (mkException "OSError" "sensor unreachable"))
    else (S w,
          update m (mkUpdateArgs "42C" None (Some "#00FF00") None None None
                                 None None None None None None None None
                                 None),
          None).

Definition named (n : string) (i : option string) : InitArgs :=
  mkInitArgs (Some n) i None None None None None None None None
             None (Some false) (Some true) None (Some Markup.NONE).

Definition clock : PollingModule nat :=
  mkPollingModule (__init__ "ClockModule" init_defaults) 1 clock_run.

Definition disk_home : PollingModule nat :=
  mkPollingModule (__init__ "DiskModule" (named "Disk" (Some "/home")))
                  5 clock_run.

Definition temperature : PollingModule nat :=
  mkPollingModule (__init__ "TemperatureModule" (named "Temp" None))
                  2 flaky_run.

Definition no_args : ClickArgs :=
  mkClickArgs None None None None None None None None.

Definition left_click : ClickArgs :=
  mkClickArgs (Some 100%Z) (Some 5%Z) (Some 1%Z) (Some 10%Z) (Some 5%Z)
              (Some 40%Z) (Some 20%Z) (Some []).

(** A stand-in for the parser, which knows three inputs: a click on
    [("Disk", "/home")], a click on [("Disk", "/var")], and bytes that are
    not JSON. *)
Definition loads (raw : string) : ClickEvent + Exception :=
  if String.eqb raw "home}"
  then inl (mkClickEvent (Some "Disk") (Some "/home") left_click)
  else if String.eqb raw "var}"
  then inl (mkClickEvent (Some "Disk") (Some "/var") left_click)
  else inr (mkException "JSONDecodeError" "Expecting value").

(** [signal.signal] as on Linux: the numbers run from 1 to 64, and the
    signals that cannot be caught, [SIGKILL] and [SIGSTOP], and the two the
    C library keeps for itself are refused. *)
Definition signal_signal (signum : Z) : option Exception :=
  if (signum <? 1)%Z || (64 <? signum)%Z
  then Some (ValueError "signal number out of range")
  else if (signum =? 9)%Z || (signum =? 19)%Z
          || (signum =? 32)%Z || (signum =? 33)%Z
  then Some (mkException "OSError" "[Errno 22] Invalid argument")
  else None.

Definition runner0 : Runner nat := Runner_init 1 0.

(** The three blocks registered in this order. *)
Definition runner3 : Runner nat :=
  fst (register_all signal_signal runner0
         [(polling clock, []); (polling disk_home, []);
          (polling temperature, [10%Z])]).

End Demo.

(** ** States a runner can be in

    Before [start] returns: a new runner, then registrations, whether they
    succeed or raise, and steps of the event loop. *)
Inductive reachable {W : Type} (signal_signal : Z -> option Exception)
    (loads : string -> ClickEvent + Exception)
  : Runner W -> Prop :=
| reach_init (sleep : Z) (w : W) :
    reachable signal_signal loads (Runner_init sleep w)
| reach_register (r : Runner W) (b : Block W) (signals : list Z) :
    reachable signal_signal loads r ->
    reachable signal_signal loads
              (fst (register_module signal_signal r b signals))
| reach_step (r : Runner W) (ev : event) :
    reachable signal_signal loads r ->
    reachable signal_signal loads (step loads r ev).

(** ** The click event the bar sends back for an object it was given

    The bar copies [name] and [instance] from the object it drew; a field
    the object lacks is missing from the event. *)
Definition as_str (v : option pyval) : option string :=
  match v with
  | Some (VStr s) => Some s
  | _ => None
  end.

Definition click_on (object : list (string * pyval)) (a : ClickArgs)
  : ClickEvent :=
  mkClickEvent (as_str (dict_get "name" object))
               (as_str (dict_get "instance" object)) a.

(** * aio_i3status/core.py: the earlier runtime

    The same three classes before the registry became a dictionary: the
    modules are kept in a list, and a module holds its fields as plain
    attributes instead of a snapshot. *)

Module Aio.

(** The attributes of a module.  [name] is [None] when the attribute was
    never assigned, which is what [__init__] does with a name that is
    given; the other optional fields are [None] when they hold Python's
    [None].  [cls] is [self.__class__.__name__], for a class that defines
    no attribute [name] of its own. *)
Record Module_ : Type := mkModule {
  cls : string;
  name : option string;
  instance : option string;
  color : option string;
  background : option string;
  border : option string;
  border_top : option string;
  border_right : option string;
  border_bottom : option string;
  border_left : option string;
  min_width : option Z;
  align : option string;
  urgent : option bool;
  separator : option bool;
  separator_block_width : option Z;
  short_text : option string;
  full_text : string
}.

(** The defaults of the signature of [__init__]. *)
Definition init_defaults : InitArgs :=
  mkInitArgs None None None None None None None None None None
             None (Some false) (Some true) None (Some Markup.NONE).

(** [Module.__init__]: the name of the class becomes the name when none is
    given, and a name that is given is dropped; [markup] is not kept. *)
Definition __init__ (class_name : string) (a : InitArgs) : Module_ :=
  mkModule class_name
           (if truthy (i_name a) then None else Some class_name)
           (i_instance a) (i_color a) (i_background a) (i_border a)
           (i_border_top a) (i_border_right a) (i_border_bottom a)
           (i_border_left a) (i_min_width a) (i_align a) (i_urgent a)
           (i_separator a) (i_separator_block_width a) None "".

Definition no_name (self : Module_) : Exception :=
  AttributeError ("'" ++ cls self ++ "' object has no attribute 'name'").

(** [format]: the dictionary literal is built in order, so the missing
    attribute is met first. *)
Definition format (self : Module_) : list (string * pyval) + Exception :=
  match name self with
  | None => inr (no_name self)
  | Some n =>
      inl (drop_none
             [ ("name", Some (VStr n));
               ("instance", ostr (instance self));
               ("color", ostr (color self));
               ("background", ostr (background self));
               ("border", ostr (border self));
               ("border_top", ostr (border_top self));
               ("border_right", ostr (border_right self));
               ("border_left", ostr (border_left self));
               ("min_width", oint (min_width self));
               ("align", ostr (align self));
               ("urgent", obool (urgent self));
               ("separator", obool (separator self));
               ("separator_block_width", oint (separator_block_width self));
               ("full_text", Some (VStr (full_text self)));
               ("short_text", ostr (short_text self)) ])
  end.

Definition set_urgent (self : Module_) (u : option bool) : Module_ :=
  mkModule (cls self) (name self) (instance self) (color self)
           (background self) (border self) (border_top self)
           (border_right self) (border_bottom self) (border_left self)
           (min_width self) (align self) u (separator self)
           (separator_block_width self) (short_text self) (full_text self).

Definition set_full_text (self : Module_) (t : string) : Module_ :=
  mkModule (cls self) (name self) (instance self) (color self)
           (background self) (border self) (border_top self)
           (border_right self) (border_bottom self) (border_left self)
           (min_width self) (align self) (urgent self) (separator self)
           (separator_block_width self) (short_text self) t.

Section Runtime.

Variable World : Type.

Definition code : Type :=
  World -> Module_ -> World * Module_ * option Exception.

Definition coroutine : Type :=
  World -> Module_ -> World * Module_ * outcome.

(** One resumption of [PollingModule.loop].  In the [except] clause
    [self.urgent] is assigned first; the text is then formatted with
    [self.name], which raises when the attribute is missing, before
    [self.full_text] is assigned. *)
Definition PollingModule_loop (run : code) : coroutine :=
  fun w m =>
    match run w m with
    | (w', m', None) => (w', m', Suspended)
    | (w', m', Some e) =>
        let m1 := set_urgent m' (Some true) in
        match name m1 with
        | None => (w', m1, Raised (no_name m1))
        | Some n =>
            (w', set_full_text m1 ("Exception in " ++ n ++ ": " ++ exc_str e),
             Returned)
        end
    end.

Record Block : Type := mkBlock {
  attrs : Module_;
  loop : coroutine
}.

(** The runner: its list of modules, its tasks, the writer first and then
    one per module, and the standard output. *)
Record Runner : Type := mkRunner {
  sleep : Z;
  modules : list Block;
  tasks : list status;
  stdout : string
}.

Definition Runner_init (sleep : Z) : Runner :=
  mkRunner sleep [] [Pending] "".

(** [register_module], for an argument that is a [Module]: there is no
    key, and nothing is refused. *)
Definition register_module (r : Runner) (module : Block) : Runner :=
  mkRunner (sleep r) (modules r ++ [module])%list (tasks r ++ [Pending])%list
           (stdout r).

(** The [for] loop of [write_results]: the first [format] that raises ends
    it. *)
Fixpoint formats (ms : list Block) : list string + Exception :=
  match ms with
  | [] => inl []
  | b :: rest =>
      match format (attrs b) with
      | inr e => inr e
      | inl d =>
          match formats rest with
          | inr e => inr e
          | inl out => inl (json_dumps d :: out)
          end
      end
  end.

(** [write_results]: an iteration of [while True], up to the sleep.  An
    exception of [format] is caught nowhere: the task of the writer ends
    with it. *)
Definition write_results (r : Runner) : Runner :=
  match tasks r with
  | Pending :: rest =>
      match formats (modules r) with
      | inl out =>
          mkRunner (sleep r) (modules r) (tasks r)
                   (stdout r ++ "[" ++ join "," out ++ "]," ++ nl)
      | inr _ => mkRunner (sleep r) (modules r) (Finished :: rest) (stdout r)
      end
  | _ => r
  end.

End Runtime.

Arguments code World : clear implicits.
Arguments coroutine World : clear implicits.
Arguments Block World : clear implicits.
Arguments Runner World : clear implicits.
Arguments PollingModule_loop {World} _ _ _.
Arguments mkBlock {World} _ _.
Arguments attrs {World} _.
Arguments loop {World} _ _ _.
Arguments mkRunner {World} _ _ _ _.
Arguments sleep {World} _.
Arguments modules {World} _.
Arguments tasks {World} _.
Arguments stdout {World} _.
Arguments Runner_init {World} _.
Arguments register_module {World} _ _.
Arguments formats {World} _.
Arguments write_results {World} _.

End Aio.

(** * blocks/psutil.py and modules/pulsectl.py: the parts without a device *)

(** [s.split(sep)] for a separator of one character. *)
Fixpoint split (sep : ascii) (s : string) : list string :=
  match s with
  | EmptyString => [""]
  | String c rest =>
      if Ascii.eqb c sep then "" :: split sep rest
      else match split sep rest with
           | w :: ws => String c w :: ws
           | [] => [String c ""]
           end
  end.



Module DiskUsageBlock.

(** *** [str(Path(path))], as pathlib computes it on a POSIX system

    The path is cut at the slashes; the empty components and the
    components ["."] are dropped, [".."] is kept; the root is two slashes
    for a path that starts with exactly two and one slash for any other
    path that starts with a slash; a path left with nothing is ["."]. *)








End DiskUsageBlock.

Module NetworkSpeedBlock.

(** [_find_interface]: [interfaces] is what [net_if_stats()] returns, each
    name with its [isup], in the order of the dictionary; [matches] is
    [self.interface_regex.match]. *)
Fixpoint _find_interface (matches : string -> bool)
    (interfaces : list (string * bool)) : option string :=
  match interfaces with
  | [] => None
  | (interface, isup) :: rest =>
      if isup && matches interface then Some interface
      else _find_interface matches rest
  end.

End NetworkSpeedBlock.

Module PulseAudioModule.

(** [_find_sink_index]: [sink_list] gives each sink by its [index] and its
    [name]; the value is what [self.sink_index] is set to, or the
    [AssertionError] of the [assert]. *)
Fixpoint first_named (default_sink_name : string) (sink_list : list (Z * string))
  : option Z :=
  match sink_list with
  | [] => None
  | (index, sink_name) :: rest =>
      if String.eqb sink_name default_sink_name then Some index
      else first_named default_sink_name rest
  end.

Definition _find_sink_index (default_sink_name : string)
    (sink_list : list (Z * string)) : Z + Exception :=
  match sink_list with
  | [] => inr (mkException "AssertionError" "No sinks found")
  | _ =>
      inl (match first_named default_sink_name sink_list with
           | Some index => index
           | None => 0%Z
           end)
  end.

End PulseAudioModule.


(** * Properties *)

(** ** Dictionaries *)

Lemma dict_get_In {V : Type} (k : string) (v : V) (d : list (string * V)) :
  dict_get k d = Some v -> In (k, v) d.
Proof.
  induction d as [|[k' v'] d IH]; simpl; [discriminate|].
  destruct (String.eqb_spec k k') as [->|Hne].
  - intros [= ->]. now left.
  - intros H. right. now apply IH.
Qed.

Lemma dict_get_None {V : Type} (k : string) (d : list (string * V)) :
  dict_get k d = None <-> ~ In k (keys d).
Proof.
  induction d as [|[k' v'] d IH]; simpl.
  - split; [intros _ []|reflexivity].
  - destruct (String.eqb_spec k k') as [->|Hne].
    + split; [discriminate|]. intros H. exfalso. apply H. now left.
    + rewrite IH. split.
      * intros H [E|HIn]; [now apply Hne|now apply H].
      * intros H HIn. apply H. now right.
Qed.

Lemma In_dict_get {V : Type} (k : string) (v : V) (d : list (string * V)) :
  NoDup (keys d) -> In (k, v) d -> dict_get k d = Some v.
Proof.
  induction d as [|[k' v'] d IH]; simpl; [intros _ []|].
  intros Hnd [E|HIn].
  - injection E as -> ->. now rewrite String.eqb_refl.
  - inversion Hnd as [|? ? Hnotin Hnd']; subst.
    destruct (String.eqb_spec k k') as [->|Hne].
    + exfalso. apply Hnotin. change (In (fst (k', v)) (map fst d)).
      now apply in_map.
    + now apply IH.
Qed.

Lemma existsb_eqb_In (k : string) (l : list string) :
  existsb (String.eqb k) l = true <-> In k l.
Proof.
  rewrite existsb_exists. split.
  - intros [y [HIn E]]. apply String.eqb_eq in E. now subst.
  - intros HIn. exists k. split; [assumption|apply String.eqb_refl].
Qed.

(** ** result() *)

Lemma drop_none_In (s : state) (k : string) (v : pyval) :
  In (k, v) (drop_none s) <-> In (k, Some v) s.
Proof.
  induction s as [|[k' [v'|]] s IH]; simpl.
  - tauto.
  - rewrite IH. split; intros [E|H]; auto; left; congruence.
  - rewrite IH. split; [auto|]. intros [E|H]; [discriminate|assumption].
Qed.

Lemma drop_none_keys (s : state) (k : string) :
  In k (keys (drop_none s)) -> In k (keys s).
Proof.
  induction s as [|[k' [v'|]] s IH]; simpl; [tauto| |]; intuition.
Qed.

Lemma drop_none_get (s : state) (k : string) :
  NoDup (keys s) ->
  dict_get k (drop_none s)
  = match dict_get k s with
    | Some (Some v) => Some v
    | _ => None
    end.
Proof.
  induction s as [|[k' [v'|]] s IH]; simpl; [reflexivity| |];
    intros Hnd; inversion Hnd as [|? ? Hnotin Hnd']; subst.
  - destruct (String.eqb k k'); [reflexivity|now apply IH].
  - destruct (String.eqb_spec k k') as [->|Hne]; [|now apply IH].
    apply dict_get_None. intros HIn. apply Hnotin.
    now apply drop_none_keys.
Qed.

Lemma update_keys (m : Module_) (a : UpdateArgs) :
  keys (_state (update m a))
  = ["name"; "instance"; "full_text"; "short_text"; "color"; "background";
     "border"; "border_top"; "border_right"; "border_left"; "border_bottom";
     "min_width"; "align"; "urgent"; "separator"; "separator_block_width";
     "markup"].
Proof. reflexivity. Qed.

Lemma nodupb_NoDup (l : list string) : nodupb l = true -> NoDup l.
Proof.
  induction l as [|k l IH]; simpl; [constructor|].
  intros H. apply andb_true_iff in H as [Hk Hl].
  constructor; [|now apply IH].
  intros HIn. apply existsb_eqb_In in HIn. now rewrite HIn in Hk.
Qed.

(** Every snapshot [update] builds is a dictionary: no key is repeated. *)
Lemma update_NoDup (m : Module_) (a : UpdateArgs) :
  NoDup (keys (_state (update m a))).
Proof. rewrite update_keys. apply nodupb_NoDup. reflexivity. Qed.

(** C5: for a block whose snapshot is a dictionary, [result()] holds exactly
    the pairs of the snapshot whose value is not [None], looking a key up in
    it gives the value of the snapshot when that is not [None] and nothing
    otherwise, and a key of it is never one the snapshot maps to [None] or
    lacks; so a snapshot whose [color] is [None] gives no [color] key, which
    is the case after any [update] without a colour of a block constructed
    without one. *)
Theorem result_omits_null (m : Module_) (Hdict : NoDup (keys (_state m))) :
  (forall k v, In (k, v) (result m) <-> In (k, Some v) (_state m)) /\
  (forall k, dict_get k (result m)
             = match dict_get k (_state m) with
               | Some (Some v) => Some v
               | _ => None
               end) /\
  (forall k, In k (keys (result m)) ->
             exists v, dict_get k (_state m) = Some (Some v)) /\
  (dict_get "color" (_state m) = Some None -> ~ In "color" (keys (result m))) /\
  (forall a, _color m = None -> color a = None ->
             ~ In "color" (keys (result (update m a)))).
Proof.
  assert (Hget : forall k, dict_get k (result m)
             = match dict_get k (_state m) with
               | Some (Some v) => Some v
               | _ => None
               end) by (intros k; now apply drop_none_get).
  repeat split.
  - apply drop_none_In.
  - apply drop_none_In.
  - exact Hget.
  - intros k HIn.
    destruct (dict_get k (result m)) as [v|] eqn:E.
    + rewrite Hget in E. destruct (dict_get k (_state m)) as [[v'|]|];
        try discriminate. now exists v'.
    + apply dict_get_None in E. contradiction.
  - intros Hc. apply dict_get_None. now rewrite Hget, Hc.
  - intros a Hm Ha. apply dict_get_None. unfold result.
    rewrite drop_none_get by apply update_NoDup.
    simpl. unfold _get_value_or_default. rewrite Ha. simpl.
    unfold getattr. simpl. now rewrite Hm.
Qed.

Lemma result_omits_null_witness :
  let m := __init__ "ClockModule" init_defaults in
  NoDup (keys (_state m)) /\
  dict_get "color" (_state m) = Some None /\
  ~ In "color" (keys (result m)) /\
  dict_get "urgent" (result m) = Some (VBool false).
Proof.
  assert (Hd : NoDup (keys (_state (__init__ "ClockModule" init_defaults))))
    by (apply nodupb_NoDup; reflexivity).
  destruct (result_omits_null (__init__ "ClockModule" init_defaults) Hd)
    as (_ & Hget & _ & Hcolor & _).
  split; [exact Hd|]. split; [reflexivity|]. split.
  - apply Hcolor. reflexivity.
  - rewrite Hget. reflexivity.
Defined.

(** ** update() *)

Lemma update_defaults_kept (m : Module_) (a : UpdateArgs) :
  defaults (update m a) = defaults m
  /\ name (update m a) = name m /\ instance (update m a) = instance m.
Proof. repeat split. Qed.

Lemma updated_defaults (cls : string) (ia : InitArgs) (us : list UpdateArgs) :
  defaults (updated cls ia us) = constructed ia.
Proof.
  unfold updated.
  assert (H : defaults (__init__ cls ia) = constructed ia) by reflexivity.
  revert H. generalize (__init__ cls ia). induction us as [|u us IH]; simpl.
  - trivial.
  - intros m Hm. apply IH. now rewrite (proj1 (update_defaults_kept m u)).
Qed.

(** The snapshot [update] stores, field by field. *)
Lemma update_state_fields (m : Module_) (a : UpdateArgs) :
  _state (update m a)
  = [ ("name", Some (VStr (name m)));
      ("instance", ostr (instance m));
      ("full_text", Some (VStr (full_text a)));
      ("short_text", ostr (short_text a));
      ("color", ostr (override (color a) (_color m)));
      ("background", ostr (override (background a) (_background m)));
      ("border", ostr (override (border a) (_border m)));
      ("border_top", ostr (override (border_top a) (_border_top m)));
      ("border_right", ostr (override (border_right a) (_border_right m)));
      ("border_left", ostr (override (border_left a) (_border_left m)));
      ("border_bottom", ostr (override (border_bottom a) (_border_bottom m)));
      ("min_width", oint (override (min_width a) (_min_width m)));
      ("align", ostr (override (align a) (_align m)));
      ("urgent", obool (override (urgent a) (_urgent m)));
      ("separator", obool (override (separator a) (_separator m)));
      ("separator_block_width",
        oint (override (separator_block_width a) (_separator_block_width m)));
      ("markup", ostr (override (markup a) (_markup m))) ].
Proof.
  destruct a as [ft st c bg b bt br bb bl mw al u sp sw mk]. simpl.
  unfold _get_value_or_default, getattr; simpl.
  destruct c, bg, b, bt, br, bb, bl, mw, al, u, sp, sw, mk; reflexivity.
Qed.

(** C6: for a block constructed with the values [ia] and updated any
    number of times since, a call [update(a)] stores a snapshot that does
    not depend on the one it replaces, in which [full_text] and
    [short_text] are the values passed and each of the thirteen style
    fields is the value passed when it is not [None] and the value given at
    construction otherwise; the defaults themselves are left as they
    were. *)
Theorem update_overrides_defaults
    (cls : string) (ia : InitArgs) (us : list UpdateArgs) (a : UpdateArgs) :
  let m := updated cls ia us in
  let s := _state (update m a) in
  (forall old, _state (update (set_state m old) a) = s) /\
  dict_get "full_text" s = Some (Some (VStr (full_text a))) /\
  dict_get "short_text" s = Some (ostr (short_text a)) /\
  dict_get "color" s = Some (ostr (override (color a) (i_color ia))) /\
  dict_get "background" s
    = Some (ostr (override (background a) (i_background ia))) /\
  dict_get "border" s = Some (ostr (override (border a) (i_border ia))) /\
  dict_get "border_top" s
    = Some (ostr (override (border_top a) (i_border_top ia))) /\
  dict_get "border_right" s
    = Some (ostr (override (border_right a) (i_border_right ia))) /\
  dict_get "border_bottom" s
    = Some (ostr (override (border_bottom a) (i_border_bottom ia))) /\
  dict_get "border_left" s
    = Some (ostr (override (border_left a) (i_border_left ia))) /\
  dict_get "min_width" s
    = Some (oint (override (min_width a) (i_min_width ia))) /\
  dict_get "align" s = Some (ostr (override (align a) (i_align ia))) /\
  dict_get "urgent" s = Some (obool (override (urgent a) (i_urgent ia))) /\
  dict_get "separator" s
    = Some (obool (override (separator a) (i_separator ia))) /\
  dict_get "separator_block_width" s
    = Some (oint (override (separator_block_width a)
                           (i_separator_block_width ia))) /\
  dict_get "markup" s = Some (ostr (override (markup a) (i_markup ia))) /\
  defaults (update m a) = constructed ia.
Proof.
  intros m s.
  pose proof (updated_defaults cls ia us) as Hd. fold m in Hd.
  assert (Hs : s = _state (update m a)) by reflexivity.
  rewrite update_state_fields in Hs.
  unfold defaults, constructed in Hd.
  injection Hd as H1 H2 H3 H4 H5 H6 H7 H8 H9 H10 H11 H12 H13.
  rewrite H1, H2, H3, H4, H5, H6, H7, H8, H9, H10, H11, H12, H13 in Hs.
  split; [intros old; subst s; now rewrite !update_state_fields|].
  rewrite Hs.
  repeat (split; [reflexivity|]).
  rewrite (proj1 (update_defaults_kept m a)). apply updated_defaults.
Qed.

(** ** The registry *)

Lemma dict_get_app_new {V : Type} (k : string) (v : V) (d : list (string * V)) :
  ~ In k (keys d) -> dict_get k (d ++ [(k, v)])%list = Some v.
Proof.
  induction d as [|[k' v'] d IH]; simpl; intros H.
  - now rewrite String.eqb_refl.
  - destruct (String.eqb_spec k k') as [->|Hne].
    + exfalso. apply H. now left.
    + apply IH. intros HIn. apply H. now right.
Qed.

Lemma dict_get_app_other {V : Type} (k k' : string) (v : V)
    (d : list (string * V)) :
  k <> k' -> dict_get k (d ++ [(k', v)])%list = dict_get k d.
Proof.
  intros Hne. induction d as [|[k0 v0] d IH]; simpl.
  - destruct (String.eqb_spec k k'); [contradiction|reflexivity].
  - destruct (String.eqb k k0); [reflexivity|exact IH].
Qed.

Lemma install_all_spec (signal_signal : Z -> option Exception)
    (key : string) (signums : list Z) (hs : list (Z * string)) :
  match install_all signal_signal key signums hs with
  | (hs', None) =>
      Forall (fun n => signal_signal n = None) signums /\
      hs' = fold_left (fun hs0 n => install n key hs0) signums hs
  | (hs', Some e) =>
      exists before n after,
        signums = (before ++ n :: after)%list /\
        Forall (fun n0 => signal_signal n0 = None) before /\
        signal_signal n = Some e /\
        hs' = fold_left (fun hs0 n0 => install n0 key hs0) before hs
  end.
Proof.
  revert hs. induction signums as [|n signums IH]; intros hs; simpl.
  - split; [constructor|reflexivity].
  - destruct (signal_signal n) as [e|] eqn:En.
    + exists [], n, signums.
      split; [reflexivity|]. split; [constructor|].
      split; [exact En|reflexivity].
    + specialize (IH (install n key hs)).
      destruct (install_all signal_signal key signums (install n key hs))
        as [hs' [e|]].
      * destruct IH as (before & n0 & after & -> & Hb & Hn0 & ->).
        exists (n :: before), n0, after.
        split; [reflexivity|]. split; [constructor; assumption|].
        split; [exact Hn0|reflexivity].
      * destruct IH as (Hall & ->).
        split; [constructor; assumption|reflexivity].
Qed.

(** A registration under a new key: the module is stored and its task is
    made whatever [signal.signal] then does. *)
Lemma register_module_fresh {W : Type}
    (signal_signal : Z -> option Exception)
    (r : Runner W) (b : Block W) (signals : list Z) :
  ~ In (_get_module_key (attrs b)) (keys (modules r)) ->
  exists r' e,
    register_module signal_signal r b signals = (r', e) /\
    modules r' = (modules r ++ [(_get_module_key (attrs b), b)])%list /\
    tasks r' = (tasks r ++ [(loop_task (_get_module_key (attrs b)), Pending)])%list /\
    stdout r' = stdout r /\ world r' = world r /\
    (e = None <-> Forall (fun n => signal_signal n = None) signals) /\
    (forall exn, e = Some exn ->
                 exists n, In n signals /\ signal_signal n = Some exn).
Proof.
  intros Hfresh. unfold register_module.
  destruct (existsb (String.eqb (_get_module_key (attrs b))) (keys (modules r)))
    eqn:E.
  - apply existsb_eqb_In in E. contradiction.
  - simpl. destruct signals as [|n signals].
    + eexists. exists None.
      split; [reflexivity|]. do 4 (split; [reflexivity|]).
      split; [split; [constructor|reflexivity]|discriminate].
    + unfold register_signal.
      pose proof (install_all_spec signal_signal (_get_module_key (attrs b))
                    (n :: signals)
                    (handlers (_register_task
                       (set_modules r (modules r
                          ++ [(_get_module_key (attrs b), b)])%list)
                       (loop_task (_get_module_key (attrs b)))))) as Hspec.
      destruct (install_all signal_signal (_get_module_key (attrs b))
                  (n :: signals) _) as [hs' [e|]].
      * destruct Hspec as (before & n0 & after & Hsplit & _ & Hn0 & _).
        eexists. exists (Some e).
        split; [reflexivity|]. do 4 (split; [reflexivity|]).
        split; [split|].
        -- discriminate.
        -- intros Hall. exfalso. rewrite Hsplit in Hall.
           apply Forall_app in Hall as (_ & Hall).
           inversion Hall; congruence.
        -- intros exn Hexn. injection Hexn as <-. exists n0.
           split; [|exact Hn0].
           rewrite Hsplit. apply in_or_app. right. now left.
      * destruct Hspec as (Hall & _).
        eexists. exists None.
        split; [reflexivity|]. do 4 (split; [reflexivity|]).
        split; [split; [intros _; exact Hall|reflexivity]|discriminate].
Qed.

(** A registration that raised nothing was one under a new key. *)
Lemma register_module_success {W : Type}
    (signal_signal : Z -> option Exception)
    (r r' : Runner W) (b : Block W) (signals : list Z) :
  register_module signal_signal r b signals = (r', None) ->
  ~ In (_get_module_key (attrs b)) (keys (modules r)) /\
  modules r' = (modules r ++ [(_get_module_key (attrs b), b)])%list /\
  tasks r' = (tasks r ++ [(loop_task (_get_module_key (attrs b)), Pending)])%list /\
  stdout r' = stdout r /\ world r' = world r.
Proof.
  intros Hreg.
  destruct (in_dec string_dec (_get_module_key (attrs b)) (keys (modules r)))
    as [Hdup|Hfresh].
  - exfalso. unfold register_module in Hreg.
    apply existsb_eqb_In in Hdup. rewrite Hdup in Hreg. discriminate.
  - split; [exact Hfresh|].
    destruct (register_module_fresh signal_signal r b signals Hfresh)
      as (r1 & e & Hreg1 & Hm & Ht & Ho & Hw & _).
    rewrite Hreg in Hreg1. injection Hreg1 as <- <-. auto.
Qed.

Lemma register_module_duplicate {W : Type}
    (signal_signal : Z -> option Exception)
    (r : Runner W) (b : Block W) (signals : list Z) :
  In (_get_module_key (attrs b)) (keys (modules r)) ->
  exists e, register_module signal_signal r b signals = (r, Some e)
            /\ exc_class e = "ValueError".
Proof.
  intros Hdup. unfold register_module.
  apply existsb_eqb_In in Hdup. rewrite Hdup. simpl.
  eexists. split; reflexivity.
Qed.

(** C2, as stated, fails: a registration under a key that is new does not
    always succeed.  Registering the clock block on a new runner with the
    signal number 9, which [signal.signal] refuses, stores the block and
    makes its task, and then raises. *)
Lemma register_fresh_key_can_raise :
  let r := Demo.runner0 in
  let b := polling Demo.clock in
  let after := register_module Demo.signal_signal r b [9%Z] in
  ~ In (_get_module_key (attrs b)) (keys (modules r)) /\
  snd after <> None /\
  keys (modules (fst after)) = ["ClockModule__default"] /\
  tasks (fst after)
    = [(write_task, Pending); (click_task, Pending);
       (loop_task "ClockModule__default", Pending)].
Proof. repeat split; [intros []|discriminate]. Qed.

(** C2, amended: in every runner state, registering a block whose key is
    already in the registry raises [ValueError] and leaves the runner as it
    was, its registry and its list of tasks included.  Registering a block
    whose key is not in the registry appends the block to the registry
    under its key and appends one pending task for its loop, every other
    entry staying as it was; it raises nothing exactly when
    [signal.signal] accepts every signal number given with the block, as it
    does when none is given, and otherwise it raises the exception of
    [signal.signal], after the block was stored.  Either way a later
    registration under the same key raises and leaves the first block in
    place. *)
Theorem register_module_unique {W : Type}
    (signal_signal : Z -> option Exception)
    (r : Runner W) (b : Block W) (signals : list Z) :
  let key := _get_module_key (attrs b) in
  (In key (keys (modules r)) ->
     exists e, register_module signal_signal r b signals = (r, Some e)
               /\ exc_class e = "ValueError") /\
  (~ In key (keys (modules r)) ->
     exists r' e,
       register_module signal_signal r b signals = (r', e) /\
       modules r' = (modules r ++ [(key, b)])%list /\
       tasks r' = (tasks r ++ [(loop_task key, Pending)])%list /\
       dict_get key (modules r') = Some b /\
       (forall k, k <> key -> dict_get k (modules r') = dict_get k (modules r)) /\
       (e = None <-> Forall (fun n => signal_signal n = None) signals) /\
       (forall exn, e = Some exn ->
                    exists n, In n signals /\ signal_signal n = Some exn) /\
       (forall (b2 : Block W) (signals2 : list Z),
          _get_module_key (attrs b2) = key ->
          exists e2, register_module signal_signal r' b2 signals2 = (r', Some e2)
                     /\ dict_get key (modules r') = Some b)).
Proof.
  intros key. split.
  - apply register_module_duplicate.
  - intros Hfresh.
    destruct (register_module_fresh signal_signal r b signals Hfresh)
      as (r' & e & Hreg & Hmods & Htasks & _ & _ & Hnone & Hsome).
    fold key in Hmods, Htasks.
    assert (Hget : dict_get key (modules r') = Some b)
      by (rewrite Hmods; now apply dict_get_app_new).
    exists r', e.
    split; [exact Hreg|]. split; [exact Hmods|]. split; [exact Htasks|].
    split; [exact Hget|]. split; [|split; [exact Hnone|split; [exact Hsome|]]].
    + intros k Hk. rewrite Hmods. now apply dict_get_app_other.
    + intros b2 signals2 Hkey.
      destruct (register_module_duplicate signal_signal r' b2 signals2)
        as (e2 & He & _).
      * rewrite Hkey. apply dict_get_In in Hget.
        change key with (fst (key, b)). now apply in_map.
      * exists e2. now split.
Qed.

Lemma register_module_unique_witness :
  let r := Demo.runner3 in
  In (_get_module_key (attrs (polling Demo.disk_home))) (keys (modules r)) /\
  (exists e, register_module Demo.signal_signal r (polling Demo.disk_home) []
             = (r, Some e)
             /\ exc_class e = "ValueError") /\
  ~ In (_get_module_key (attrs (polling Demo.clock)))
       (keys (modules Demo.runner0)) /\
  (exists r', register_module Demo.signal_signal Demo.runner0
                (polling Demo.clock) [10%Z; 12%Z] = (r', None)
              /\ keys (modules r') = ["ClockModule__default"]).
Proof.
  assert (Hin : In (_get_module_key (attrs (polling Demo.disk_home)))
                   (keys (modules Demo.runner3)))
    by (right; left; reflexivity).
  assert (Hout : ~ In (_get_module_key (attrs (polling Demo.clock)))
                      (keys (modules Demo.runner0)))
    by (intros []).
  split; [exact Hin|]. split.
  - exact (proj1 (register_module_unique Demo.signal_signal Demo.runner3
                    (polling Demo.disk_home) []) Hin).
  - split; [exact Hout|].
    destruct (proj2 (register_module_unique Demo.signal_signal Demo.runner0
                       (polling Demo.clock) [10%Z; 12%Z]) Hout)
      as (r' & e & Hreg & Hmods & _ & _ & _ & Hnone & _).
    assert (He : e = None).
    { apply Hnone. repeat constructor. }
    subst e. exists r'. split; [exact Hreg|]. rewrite Hmods. reflexivity.
Defined.

(** ** The registry key *)

(** Two keys built from different names or instances can be the same
    string. *)
Lemma module_key_examples :
  _get_module_key (__init__ "B" (Demo.named "a__b" (Some "c"))) = "a__b__c" /\
  _get_module_key (__init__ "B" (Demo.named "a" (Some "b__c"))) = "a__b__c" /\
  _get_module_key (__init__ "B" (Demo.named "a" None)) = "a__none" /\
  _get_module_key (__init__ "B" (Demo.named "a" (Some "none"))) = "a__none" /\
  _get_module_key (__init__ "B" (Demo.named "a" (Some ""))) = "a__none".
Proof. repeat split. Qed.

(** C10, as stated, fails: the key is not [name + "__" + instance] for
    every instance that is not [None].  A block constructed with the empty
    string as instance gets the key ["a__none"], not ["a__"]. *)
Lemma module_key_empty_instance :
  let m := __init__ "B" (Demo.named "a" (Some "")) in
  instance m = Some "" /\
  _get_module_key m = "a__none" /\
  key_if_not_None m = "a__" /\
  _get_module_key m <> key_if_not_None m.
Proof. repeat split. discriminate. Qed.

(** C10, amended: the key is [name + "__" + instance] when the instance is
    neither [None] nor empty, and [name + "__none"] otherwise.  The mapping
    is not injective on identities: [("a__b", "c")] and [("a", "b__c")]
    share a key, and so do the instances [None], ["none"] and [""] under
    one name.  Whenever two blocks of different identity share a key and
    the first is registered, registering the second raises and leaves the
    runner as it was, and a click event addressed to the name and instance
    of the second resolves to the entry of the first. *)
Theorem module_key_not_injective {W : Type}
    (signal_signal : Z -> option Exception) (r r1 : Runner W)
    (b1 b2 : Block W) (s1 s2 : list Z)
    (Hdistinct : identity (attrs b1) <> identity (attrs b2))
    (Hsame : _get_module_key (attrs b1) = _get_module_key (attrs b2))
    (Hfirst : register_module signal_signal r b1 s1 = (r1, None)) :
  (forall m, _get_module_key m
             = name m ++ "__" ++ match instance m with
                                 | Some "" => "none"
                                 | Some i => i
                                 | None => "none"
                                 end) /\
  (exists e, register_module signal_signal r1 b2 s2 = (r1, Some e)) /\
  _get_module_from_key r1 (Some (name (attrs b2))) (instance (attrs b2))
    = Some b1 /\
  _get_module_from_key r1 (Some (name (attrs b1))) (instance (attrs b1))
    = Some b1.
Proof.
  destruct (register_module_success signal_signal r r1 b1 s1 Hfirst)
    as (Hfresh & Hmods & _).
  assert (Hget : dict_get (_get_module_key (attrs b1)) (modules r1) = Some b1)
    by (rewrite Hmods; now apply dict_get_app_new).
  split; [|split; [|split]].
  - intros m. unfold _get_module_key, or_else.
    destruct (instance m) as [[|c i]|]; reflexivity.
  - destruct (register_module_duplicate signal_signal r1 b2 s2)
      as (e & He & _).
    + rewrite <- Hsame. apply dict_get_In in Hget.
      change (_get_module_key (attrs b1))
        with (fst (_get_module_key (attrs b1), b1)).
      now apply in_map.
    + now exists e.
  - unfold _get_module_from_key. simpl.
    change (dict_get (_get_module_key (attrs b2)) (modules r1) = Some b1).
    now rewrite <- Hsame.
  - exact Hget.
Qed.

Lemma module_key_not_injective_witness :
  let b1 := polling (mkPollingModule
                       (__init__ "B" (Demo.named "a__b" (Some "c")))
                       1 Demo.clock_run) in
  let b2 := polling (mkPollingModule
                       (__init__ "B" (Demo.named "a" (Some "b__c")))
                       1 Demo.clock_run) in
  let r1 := fst (register_module Demo.signal_signal Demo.runner0 b1 []) in
  identity (attrs b1) <> identity (attrs b2) /\
  (exists e, register_module Demo.signal_signal r1 b2 [] = (r1, Some e)) /\
  _get_module_from_key r1 (Some "a") (Some "b__c") = Some b1.
Proof.
  intros b1 b2 r1.
  assert (Hd : identity (attrs b1) <> identity (attrs b2)) by discriminate.
  destruct (module_key_not_injective Demo.signal_signal Demo.runner0 r1
              b1 b2 [] [] Hd
              eq_refl eq_refl) as (_ & Hdup & Hres & _).
  split; [exact Hd|]. split; [exact Hdup|exact Hres].
Defined.

(** ** Polling blocks *)

(** C9: the default [click_handler] and the default [signal_handler] of a
    polling block do what one call of [run] does, whatever the arguments of
    the click or the signal; when the calls of [run] are counted, each
    handler adds exactly one. *)
Theorem default_handlers_run_once {W : Type} (self : PollingModule W)
    (a : ClickArgs) (signum : Z) (w : W) (m : Module_) (n : nat) :
  click_handler (polling self) a w m = run self w m /\
  signal_handler (polling self) signum w m = run self w m /\
  click_handler (polling (counting self)) a (n, w) m
    = (let '(w', m', e) := run self w m in ((S n, w'), m', e)) /\
  signal_handler (polling (counting self)) signum (n, w) m
    = (let '(w', m', e) := run self w m in ((S n, w'), m', e)).
Proof.
  repeat split; simpl;
    unfold PollingModule_click_handler, PollingModule_signal_handler, counted;
    simpl; destruct (run self w m) as [[w' m'] e]; reflexivity.
Qed.

(** ** Tasks *)

Lemma task_eqb_eq (a b : task) : task_eqb a b = true <-> a = b.
Proof.
  destruct a, b; simpl; split; try discriminate; try reflexivity.
  - intros H. apply String.eqb_eq in H. now subst.
  - intros [= ->]. apply String.eqb_refl.
Qed.

Lemma task_eqb_neq (a b : task) : a <> b -> task_eqb a b = false.
Proof.
  intros H. destruct (task_eqb a b) eqn:E; [|reflexivity].
  apply task_eqb_eq in E. contradiction.
Qed.

Lemma task_eqb_refl (a : task) : task_eqb a a = true.
Proof. now apply task_eqb_eq. Qed.

Lemma set_status_same (t : task) (s : status) (ts : tasklist) :
  task_status t (set_status t s ts)
  = match task_status t ts with
    | Some _ => Some s
    | None => None
    end.
Proof.
  induction ts as [|[t' s'] ts IH]; simpl; [reflexivity|].
  destruct (task_eqb t t') eqn:E; simpl; rewrite E; [reflexivity|exact IH].
Qed.

Lemma set_status_other (t t' : task) (s : status) (ts : tasklist) :
  t' <> t -> task_status t' (set_status t s ts) = task_status t' ts.
Proof.
  intros Hne. induction ts as [|[t0 s0] ts IH]; simpl; [reflexivity|].
  destruct (task_eqb t t0) eqn:E; simpl.
  - apply task_eqb_eq in E. subst t0.
    rewrite (task_eqb_neq t' t Hne). exact IH.
  - destruct (task_eqb t' t0); [reflexivity|exact IH].
Qed.

(** A finished task stays finished when any task finishes. *)
Lemma set_status_Finished_stays (t t' : task) (ts : tasklist) :
  task_status t' ts = Some Finished ->
  task_status t' (set_status t Finished ts) = Some Finished.
Proof.
  intros H. induction ts as [|[t0 s0] ts IH]; simpl in *; [discriminate|].
  destruct (task_eqb t t0) eqn:E; simpl;
    destruct (task_eqb t' t0) eqn:E'; auto.
Qed.

(** ** Objects of the registry *)

Lemma store_keys {W : Type} (key : string) (m : Module_)
    (ms : list (string * Block W)) :
  keys (store key m ms) = keys ms.
Proof.
  induction ms as [|[k b] ms IH]; simpl; [reflexivity|].
  destruct (String.eqb key k); simpl; now rewrite IH.
Qed.

Lemma store_get_same {W : Type} (key : string) (m : Module_)
    (ms : list (string * Block W)) :
  dict_get key (store key m ms)
  = option_map (fun b => set_attrs b m) (dict_get key ms).
Proof.
  induction ms as [|[k b] ms IH]; simpl; [reflexivity|].
  destruct (String.eqb key k) eqn:E; simpl; rewrite E; [reflexivity|exact IH].
Qed.

Lemma store_get_other {W : Type} (key k : string) (m : Module_)
    (ms : list (string * Block W)) :
  k <> key -> dict_get k (store key m ms) = dict_get k ms.
Proof.
  intros Hne. induction ms as [|[k0 b] ms IH]; simpl; [reflexivity|].
  destruct (String.eqb_spec key k0) as [->|Hk]; simpl.
  - destruct (String.eqb_spec k k0); [contradiction|exact IH].
  - destruct (String.eqb k k0); [reflexivity|exact IH].
Qed.

(** ** What one step of the event loop can change *)

Section Steps.

Context {W : Type}.
Variable loads : string -> ClickEvent + Exception.

Lemma click_event_frame (r : Runner W) (raw : string) :
  let r' := fst (click_event loads r raw) in
  tasks r' = tasks r /\ stdout r' = stdout r /\ handlers r' = handlers r
  /\ keys (modules r') = keys (modules r).
Proof.
  unfold click_event. destruct (loads raw) as [ev|e]; simpl; [|auto].
  destruct (_get_module_from_key r (ce_name ev) (ce_instance ev)) as [b|];
    simpl; [|auto].
  destruct (click_handler b (ce_args ev) (world r) (attrs b)) as [[w' m'] e].
  simpl. repeat split. apply store_keys.
Qed.

(** A step leaves the tasks as they are, or finishes the reader or the
    loop of a block. *)
Lemma step_tasks (r : Runner W) (ev : event) :
  tasks (step loads r ev) = tasks r
  \/ exists t, t <> write_task
               /\ tasks (step loads r ev) = set_status t Finished (tasks r).
Proof.
  destruct ev as [|key|[raw|]|signum]; simpl.
  - unfold write_results. destruct (is_pending r write_task); now left.
  - unfold resume_loop. destruct (is_pending r (loop_task key)); [|now left].
    destruct (dict_get key (modules r)) as [b|]; [|now left].
    destruct (loop b (world r) (attrs b)) as [[w' m'] o].
    destruct o; simpl; [now left| |];
      right; exists (loop_task key); (split; [discriminate|reflexivity]).
  - unfold click_events. destruct (is_pending r click_task); [|now left].
    pose proof (click_event_frame r raw) as (Ht & _).
    destruct (click_event loads r raw) as [r' [e|]]; simpl in *.
    + right. exists click_task. split; [discriminate|]. now rewrite Ht.
    + now left.
  - unfold click_events. destruct (is_pending r click_task); [|now left].
    right. exists click_task. split; [discriminate|reflexivity].
  - destruct (handler_of signum (handlers r)) as [key|]; [|now left].
    unfold _handler. destruct (dict_get key (modules r)) as [b|]; [|now left].
    destruct (signal_handler b signum (world r) (attrs b)) as [[w' m'] [e|]];
      now left.
Qed.

Lemma step_keys (r : Runner W) (ev : event) :
  keys (modules (step loads r ev)) = keys (modules r).
Proof.
  destruct ev as [|key|[raw|]|signum]; simpl.
  - unfold write_results. now destruct (is_pending r write_task).
  - unfold resume_loop. destruct (is_pending r (loop_task key)); [|reflexivity].
    destruct (dict_get key (modules r)) as [b|]; [|reflexivity].
    destruct (loop b (world r) (attrs b)) as [[w' m'] o].
    destruct o; simpl; apply store_keys.
  - unfold click_events. destruct (is_pending r click_task); [|reflexivity].
    pose proof (click_event_frame r raw) as (_ & _ & _ & Hk).
    destruct (click_event loads r raw) as [r' [e|]]; simpl in *; exact Hk.
  - unfold click_events. now destruct (is_pending r click_task).
  - destruct (handler_of signum (handlers r)) as [key|]; [|reflexivity].
    unfold _handler. destruct (dict_get key (modules r)) as [b|]; [|reflexivity].
    destruct (signal_handler b signum (world r) (attrs b)) as [[w' m'] [e|]];
      simpl; apply store_keys.
Qed.

(** A property of the runner that every step keeps holds after any
    schedule. *)
Lemma run_events_invariant (P : Runner W -> Prop) :
  (forall r ev, P r -> P (step loads r ev)) ->
  forall evs r, P r -> P (run_events loads r evs).
Proof.
  intros Hstep evs. induction evs as [|ev evs IH]; simpl; intros r Hr.
  - exact Hr.
  - apply IH. now apply Hstep.
Qed.

Lemma run_events_app (r : Runner W) (evs1 evs2 : list event) :
  run_events loads r (evs1 ++ evs2)
  = run_events loads (run_events loads r evs1) evs2.
Proof. unfold run_events. apply fold_left_app. Qed.

Lemma step_finished_stays (t : task) (r : Runner W) (ev : event) :
  task_status t (tasks r) = Some Finished ->
  task_status t (tasks (step loads r ev)) = Some Finished.
Proof.
  intros H. destruct (step_tasks r ev) as [E|(t' & _ & E)]; rewrite E.
  - exact H.
  - now apply set_status_Finished_stays.
Qed.

Lemma finished_stays (t : task) (r : Runner W) (evs : list event) :
  task_status t (tasks r) = Some Finished ->
  task_status t (tasks (run_events loads r evs)) = Some Finished.
Proof.
  intros H.
  apply (run_events_invariant
           (fun r => task_status t (tasks r) = Some Finished)); [|exact H].
  intros r0 ev. apply step_finished_stays.
Qed.

(** Nothing ends the writer. *)
Lemma step_writer_status (r : Runner W) (ev : event) :
  task_status write_task (tasks (step loads r ev))
  = task_status write_task (tasks r).
Proof.
  destruct (step_tasks r ev) as [E|(t & Ht & E)]; rewrite E.
  - reflexivity.
  - apply set_status_other. congruence.
Qed.

Lemma writer_stays_pending (r : Runner W) (evs : list event) :
  is_pending r write_task = true ->
  is_pending (run_events loads r evs) write_task = true.
Proof.
  apply (run_events_invariant (fun r => is_pending r write_task = true)).
  intros r0 ev. unfold is_pending. now rewrite step_writer_status.
Qed.

Lemma run_events_keys (r : Runner W) (evs : list event) :
  keys (modules (run_events loads r evs)) = keys (modules r).
Proof.
  apply (run_events_invariant
           (fun r' => keys (modules r') = keys (modules r))); [|reflexivity].
  intros r0 ev H. now rewrite step_keys.
Qed.

(** A task that is not pending is never resumed. *)
Lemma resume_loop_done (r : Runner W) (key : string) :
  is_pending r (loop_task key) = false -> resume_loop r key = r.
Proof. intros H. unfold resume_loop. now rewrite H. Qed.

Lemma click_events_done (r : Runner W) (input : option string) :
  is_pending r click_task = false -> click_events loads r input = r.
Proof. intros H. unfold click_events. now rewrite H. Qed.

End Steps.

(** ** The loop of a polling block *)

Lemma exception_update_snapshot (m : Module_) (e : Exception) :
  let failed := update m (exception_update m e) in
  dict_get "full_text" (_state failed)
    = Some (Some (VStr ("Exception in " ++ name m ++ ": " ++ exc_str e))) /\
  dict_get "urgent" (_state failed) = Some (Some (VBool true)).
Proof. split; reflexivity. Qed.

(** C1: take a polling block registered under [key] whose loop is pending,
    and let its [run] raise [e] when the loop is resumed.  That resumption
    stores, once, the snapshot of [update("Exception in <name>: <e>",
    urgent=True)] and finishes the task of the loop.  The other blocks, the
    other tasks and the output are as before.  From then on resuming the
    loop changes nothing at all, whatever happened in between: [run] is not
    called by it again and the snapshot is not written by it again. *)
Theorem polling_loop_failure_is_final {W : Type}
    (loads : string -> ClickEvent + Exception)
    (self : PollingModule W) (r : Runner W) (key : string) (b : Block W)
    (w' : W) (m' : Module_) (e : Exception)
    (Hreg : dict_get key (modules r) = Some b)
    (Hloop : loop b = PollingModule_loop self)
    (Hpending : is_pending r (loop_task key) = true)
    (Hraise : run self (world r) (attrs b) = (w', m', Some e)) :
  let r' := step loads r (Wake key) in
  let failed := update m' (exception_update m' e) in
  dict_get key (modules r') = Some (set_attrs b failed) /\
  dict_get "full_text" (_state failed)
    = Some (Some (VStr ("Exception in " ++ name m' ++ ": " ++ exc_str e))) /\
  dict_get "urgent" (_state failed) = Some (Some (VBool true)) /\
  world r' = w' /\
  task_status (loop_task key) (tasks r') = Some Finished /\
  (forall k, k <> key -> dict_get k (modules r') = dict_get k (modules r)) /\
  (forall t, t <> loop_task key ->
             task_status t (tasks r') = task_status t (tasks r)) /\
  stdout r' = stdout r /\
  (forall n, run_events loads r' (repeat (Wake key) n) = r') /\
  (forall evs, step loads (run_events loads r' evs) (Wake key)
               = run_events loads r' evs).
Proof.
  intros r' failed.
  assert (Hr' : r' = finish (set_world (set_modules r (store key failed (modules r))) w')
                            (loop_task key)).
  { unfold r'. simpl. unfold resume_loop.
    rewrite Hpending, Hreg, Hloop. unfold PollingModule_loop.
    rewrite Hraise. reflexivity. }
  assert (Hfin : task_status (loop_task key) (tasks r') = Some Finished).
  { rewrite Hr'. simpl. rewrite set_status_same.
    unfold is_pending in Hpending.
    destruct (task_status (loop_task key) (tasks r)); [reflexivity|discriminate]. }
  assert (Hdone : forall r0 : Runner W,
             task_status (loop_task key) (tasks r0) = Some Finished ->
             resume_loop r0 key = r0).
  { intros r0 H0. apply resume_loop_done. unfold is_pending. now rewrite H0. }
  split; [|split; [|split; [|split; [|split; [|split; [|split; [|split;
    [|split]]]]]]]].
  - rewrite Hr'. simpl. rewrite store_get_same, Hreg. reflexivity.
  - reflexivity.
  - reflexivity.
  - rewrite Hr'. reflexivity.
  - exact Hfin.
  - intros k Hk. rewrite Hr'. simpl. now apply store_get_other.
  - intros t Ht. rewrite Hr'. simpl. now apply set_status_other.
  - rewrite Hr'. reflexivity.
  - induction n as [|n IH]; simpl; [reflexivity|].
    rewrite (Hdone r' Hfin). exact IH.
  - intros evs. simpl. apply Hdone. now apply finished_stays.
Qed.

Lemma polling_loop_failure_is_final_witness :
  let key := "Temp__none" in
  let counted_temperature := polling (counting Demo.temperature) in
  let r0 := fst (register_all Demo.signal_signal (Runner_init 1 (0, 0))
                   [(polling (counting Demo.clock), []);
                    (counted_temperature, [])]) in
  let r := run_events Demo.loads r0 [Wake key; Tick; Wake key] in
  let r' := step Demo.loads r (Wake key) in
  fst (world r) = 2 /\
  is_pending r (loop_task key) = true /\
  fst (world r') = 3 /\
  is_pending r' (loop_task key) = false /\
  option_map (fun b => dict_get "full_text" (result (attrs b)))
             (dict_get key (modules r'))
    = Some (Some (VStr "Exception in Temp: sensor unreachable")) /\
  fst (world (run_events Demo.loads r' [Wake key; Wake key; Wake key])) = 3 /\
  is_pending r' (loop_task "ClockModule__default") = true.
Proof.
  intros key counted_temperature r0 r r'.
  pose (b := match dict_get key (modules r) with
             | Some b => b
             | None => counted_temperature
             end).
  destruct (polling_loop_failure_is_final Demo.loads
              (counting Demo.temperature) r key b
              (3, 3) (attrs b) (mkException "OSError" "sensor unreachable")
              eq_refl eq_refl eq_refl eq_refl)
    as (Hget & _ & _ & Hw & Hfin & _ & Hothers & _ & Hrep & _).
  fold r' in Hget, Hw, Hfin, Hothers, Hrep.
  split; [reflexivity|]. split; [reflexivity|].
  split; [now rewrite Hw|].
  split; [unfold is_pending; now rewrite Hfin|].
  split; [rewrite Hget; reflexivity|].
  split; [pose proof (Hrep 3) as H3; simpl repeat in H3; rewrite H3; now rewrite Hw|].
  unfold is_pending. rewrite Hothers by discriminate. reflexivity.
Defined.

(** ** Click dispatch *)

Lemma observe_all_get {W : Type} (key : string) (ms : list (string * Block W)) :
  dict_get key (observe_all ms) = option_map (observe key) (dict_get key ms).
Proof.
  induction ms as [|[k b] ms IH]; simpl; [reflexivity|].
  destruct (String.eqb_spec key k) as [->|Hne]; [reflexivity|exact IH].
Qed.

(** C3, as stated, fails: a click on [("Disk", "/var")], which is not
    registered, makes [click_event] raise, and the reader, which catches
    the exception, ends. *)
Lemma click_on_unknown_key_raises :
  Demo.loads "var}"
    = inl (mkClickEvent (Some "Disk") (Some "/var") Demo.left_click) /\
  _get_module_from_key Demo.runner3 (Some "Disk") (Some "/var") = None /\
  snd (click_event Demo.loads Demo.runner3 "var}") <> None /\
  is_pending Demo.runner3 click_task = true /\
  is_pending (click_events Demo.loads Demo.runner3 (Some "var}")) click_task
    = false.
Proof. repeat split. discriminate. Qed.

(** C3, amended: let every [click_handler] record the key of its block and
    the arguments it is called with.  For a parsed event whose key is not
    in the registry, [click_event] calls no handler and changes nothing,
    and it raises [AttributeError]; the reader catches it and ends.  For a
    parsed event whose key is in the registry, [click_event] does what one
    call of the handler of the block under that key does, with the fields of
    the event: the record grows by that one call, the attributes of that
    block are the ones the handler left, and every other block is as
    before. *)
Theorem click_event_dispatch {W : Type}
    (loads : string -> ClickEvent + Exception)
    (r : Runner (clicklog * W)) (ms : list (string * Block W))
    (raw : string) (ev : ClickEvent)
    (Hobserved : modules r = observe_all ms)
    (Hparse : loads raw = inl ev) :
  let key := fmt (ce_name ev) ++ "__" ++ or_else (ce_instance ev) "none" in
  (dict_get key ms = None ->
     click_event loads r raw
       = (r, Some (AttributeError
                     "'NoneType' object has no attribute 'click_handler'")) /\
     (is_pending r click_task = true ->
        click_events loads r (Some raw) = finish r click_task)) /\
  (forall b, dict_get key ms = Some b ->
     exists w' m' e r',
       click_handler b (ce_args ev) (snd (world r)) (attrs b) = (w', m', e) /\
       click_event loads r raw = (r', e) /\
       world r' = ((fst (world r) ++ [(key, ce_args ev)])%list, w') /\
       dict_get key (modules r') = Some (set_attrs (observe key b) m') /\
       (forall k, k <> key -> dict_get k (modules r') = dict_get k (modules r)) /\
       tasks r' = tasks r /\ stdout r' = stdout r).
Proof.
  intros key. split.
  - intros Hnone.
    assert (Hev : click_event loads r raw
                  = (r, Some (AttributeError
                      "'NoneType' object has no attribute 'click_handler'"))).
    { unfold click_event, _get_module_from_key. rewrite Hparse. fold key.
      rewrite Hobserved, observe_all_get, Hnone. reflexivity. }
    split; [exact Hev|].
    intros Hp. unfold click_events. now rewrite Hp, Hev.
  - intros b Hsome.
    destruct (click_handler b (ce_args ev) (snd (world r)) (attrs b))
      as [[w' m'] e] eqn:Hh.
    exists w', m', e.
    eexists. split; [reflexivity|].
    split.
    + unfold click_event, _get_module_from_key. rewrite Hparse. fold key.
      rewrite Hobserved, observe_all_get, Hsome. simpl.
      unfold logged. rewrite Hh. reflexivity.
    + simpl. repeat split.
      * rewrite store_get_same, observe_all_get, Hsome. reflexivity.
      * intros k Hk. rewrite Hobserved. now apply store_get_other.
Qed.

Lemma click_event_dispatch_witness :
  let r := mkRunner 1 (observe_all (modules Demo.runner3))
                    (tasks Demo.runner3) [] "" ([], 0) in
  dict_get "Disk__/var" (modules Demo.runner3) = None /\
  click_events Demo.loads r (Some "var}") = finish r click_task /\
  (exists b, dict_get "Disk__/home" (modules Demo.runner3) = Some b) /\
  fst (world (fst (click_event Demo.loads r "home}")))
    = [("Disk__/home", Demo.left_click)].
Proof.
  intros r.
  split; [reflexivity|]. split.
  - destruct (click_event_dispatch Demo.loads r (modules Demo.runner3)
                "var}" (mkClickEvent (Some "Disk") (Some "/var") Demo.left_click)
                eq_refl eq_refl) as (Hunknown & _).
    destruct (Hunknown eq_refl) as (_ & Hreader). now apply Hreader.
  - split; [eexists; reflexivity|].
    destruct (click_event_dispatch Demo.loads r (modules Demo.runner3)
                "home}" (mkClickEvent (Some "Disk") (Some "/home")
                                      Demo.left_click)
                eq_refl eq_refl) as (_ & Hknown).
    destruct (Hknown _ eq_refl) as (w' & m' & e & r' & _ & Hev & Hw & _).
    rewrite Hev. simpl. now rewrite Hw.
Defined.

(** ** The reader *)

(** C7: let the reader be pending and let [click_event] raise on the bytes
    it got, be it in parsing them or in dispatching the event.  The step
    finishes the reader and writes nothing; when it was the parsing that
    raised, nothing else changed.  Every other task has the status it had.
    After any further schedule, input is ignored, a tick of the writer
    still appends one line for the registry as it then is, and the loop of
    a block that is pending is resumed as on any other runner. *)
Theorem reader_failure_is_contained {W : Type}
    (loads : string -> ClickEvent + Exception)
    (r r1 : Runner W) (raw : string) (e : Exception)
    (Hreader : is_pending r click_task = true)
    (Hwriter : is_pending r write_task = true)
    (Hraise : click_event loads r raw = (r1, Some e)) :
  let r' := step loads r (Input (Some raw)) in
  (forall e0, loads raw = inr e0 -> r1 = r) /\
  r' = finish r1 click_task /\
  task_status click_task (tasks r') = Some Finished /\
  (forall t, t <> click_task ->
             task_status t (tasks r') = task_status t (tasks r)) /\
  stdout r' = stdout r /\
  (forall evs,
     let r2 := run_events loads r' evs in
     (forall input, step loads r2 (Input input) = r2) /\
     step loads r2 Tick = write_result r2 /\
     stdout (step loads r2 Tick) = stdout r2 ++ tick_line (modules r2) /\
     (forall key b,
        is_pending r2 (loop_task key) = true ->
        dict_get key (modules r2) = Some b ->
        step loads r2 (Wake key)
        = (let '(w', m', o) := loop b (world r2) (attrs b) in
           let r3 := set_world (set_modules r2 (store key m' (modules r2))) w' in
           if pending_after o then r3 else finish r3 (loop_task key)))).
Proof.
  intros r'.
  pose proof (click_event_frame loads r raw) as (Ht & Hout & _).
  rewrite Hraise in Ht, Hout. simpl in Ht, Hout.
  assert (Hr' : r' = finish r1 click_task).
  { unfold r'. simpl. unfold click_events. now rewrite Hreader, Hraise. }
  assert (Hfin : task_status click_task (tasks r') = Some Finished).
  { rewrite Hr'. simpl. rewrite Ht, set_status_same.
    unfold is_pending in Hreader.
    destruct (task_status click_task (tasks r)); [reflexivity|discriminate]. }
  assert (Hw' : is_pending r' write_task = true).
  { unfold is_pending. rewrite Hr'. simpl. rewrite Ht.
    rewrite set_status_other by discriminate. exact Hwriter. }
  split; [|split; [|split; [|split; [|split]]]].
  - intros e0 He0. unfold click_event in Hraise. rewrite He0 in Hraise.
    congruence.
  - exact Hr'.
  - exact Hfin.
  - intros t Hne. rewrite Hr'. simpl. rewrite Ht. now apply set_status_other.
  - rewrite Hr'. exact Hout.
  - intros evs r2.
    assert (Hw2 : is_pending r2 write_task = true)
      by now apply writer_stays_pending.
    split; [|split; [|split]].
    + intros input. simpl. apply click_events_done.
      unfold is_pending, r2. now rewrite (finished_stays loads _ _ evs Hfin).
    + simpl. unfold write_results. now rewrite Hw2.
    + simpl. unfold write_results. now rewrite Hw2.
    + intros key b Hp Hb. simpl. unfold resume_loop. now rewrite Hp, Hb.
Qed.

Lemma reader_failure_is_contained_witness :
  let r := Demo.runner3 in
  let r' := step Demo.loads r (Input (Some "not json")) in
  is_pending r click_task = true /\
  is_pending r' click_task = false /\
  tasks r' = [(write_task, Pending); (click_task, Finished);
              (loop_task "ClockModule__default", Pending);
              (loop_task "Disk__/home", Pending);
              (loop_task "Temp__none", Pending)] /\
  stdout (step Demo.loads r' Tick) = stdout r' ++ tick_line (modules r').
Proof.
  intros r r'.
  destruct (reader_failure_is_contained Demo.loads r r "not json"
              (mkException "JSONDecodeError" "Expecting value")
              eq_refl eq_refl eq_refl)
    as (_ & Hr' & Hfin & _ & _ & Hlater).
  fold r' in Hr', Hfin, Hlater.
  split; [reflexivity|].
  split; [unfold is_pending; now rewrite Hfin|].
  split; [rewrite Hr'; reflexivity|].
  destruct (Hlater []) as (_ & _ & Hline & _). exact Hline.
Defined.

(** ** Strings *)

Lemma append_assoc (a b c : string) : (a ++ b) ++ c = a ++ (b ++ c).
Proof. induction a as [|x a IH]; simpl; [reflexivity|now rewrite IH]. Qed.

Lemma append_nil_r (a : string) : a ++ "" = a.
Proof. induction a as [|x a IH]; simpl; [reflexivity|now rewrite IH]. Qed.

Lemma printable_app (a b : string) :
  printable (a ++ b) = printable a && printable b.
Proof.
  induction a as [|x a IH]; simpl; [reflexivity|].
  rewrite IH. now rewrite andb_assoc.
Qed.

Lemma printable_join (sep : string) (l : list string) :
  printable sep = true -> Forall (fun s => printable s = true) l ->
  printable (join sep l) = true.
Proof.
  intros Hsep Hl. induction Hl as [|s l Hs Hl IH]; simpl; [reflexivity|].
  destruct l as [|s' l]; [exact Hs|].
  rewrite !printable_app, Hs, Hsep, IH. reflexivity.
Qed.

Lemma concat_lines_app (l1 l2 : list string) :
  concat_lines (l1 ++ l2) = concat_lines l1 ++ concat_lines l2.
Proof.
  induction l1 as [|s l1 IH]; simpl; [reflexivity|].
  now rewrite IH, append_assoc.
Qed.

(** ** The encoder writes printable characters only *)

Lemma escape_char_printable (c : ascii) : printable (escape_char c) = true.
Proof. destruct c as [[] [] [] [] [] [] [] []]; reflexivity. Qed.

Lemma escape_printable (s : string) : printable (escape s) = true.
Proof.
  induction s as [|c s IH]; simpl; [reflexivity|].
  now rewrite printable_app, escape_char_printable, IH.
Qed.

Lemma dumps_str_printable (s : string) : printable (dumps_str s) = true.
Proof.
  unfold dumps_str. now rewrite !printable_app, escape_printable.
Qed.

Lemma string_of_uint_printable (d : Decimal.uint) :
  printable (NilEmpty.string_of_uint d) = true.
Proof. induction d; simpl; auto. Qed.

Lemma str_of_Z_printable (z : Z) : printable (str_of_Z z) = true.
Proof.
  unfold str_of_Z, NilZero.string_of_int, NilZero.string_of_uint.
  destruct (Z.to_int z) as [d|d]; destruct d; simpl;
    try reflexivity; apply string_of_uint_printable.
Qed.

Lemma json_dumps_printable (d : list (string * pyval)) :
  printable (json_dumps d) = true.
Proof.
  unfold json_dumps. rewrite !printable_app. simpl.
  rewrite andb_true_r. apply printable_join; [reflexivity|].
  apply Forall_forall. intros s HIn. apply in_map_iff in HIn as ([k v] & <- & _).
  unfold dumps_item. cbn [fst snd].
  rewrite !printable_app, dumps_str_printable.
  change (printable ": ") with true. cbn [andb].
  destruct v as [s|z|[|]]; cbn [dumps_value];
    [apply dumps_str_printable|apply str_of_Z_printable|reflexivity|reflexivity].
Qed.

Lemma tick_line_is_tick_line {W : Type} (ms : list (string * Block W)) :
  is_tick_line (tick_line ms).
Proof.
  unfold tick_line. split.
  - exists ("[" ++ join "," (map (fun b => json_dumps (result (attrs b)))
                                 (values ms)) ++ "],").
    split.
    + simpl. f_equal. now rewrite append_assoc.
    + rewrite !printable_app. simpl. rewrite andb_true_r.
      apply printable_join; [reflexivity|].
      apply Forall_forall. intros s HIn.
      apply in_map_iff in HIn as (b & <- & _). apply json_dumps_printable.
  - exists (map (fun b => result (attrs b)) (values ms)).
    now rewrite map_map.
Qed.

(** ** The output *)

Section Output.

Context {W : Type}.
Variable loads : string -> ClickEvent + Exception.

(** A step writes nothing, or one line for the registry. *)
Lemma step_stdout (r : Runner W) (ev : event) :
  exists lines,
    stdout (step loads r ev) = stdout r ++ concat_lines lines
    /\ Forall is_tick_line lines.
Proof.
  assert (Hnone : forall out : string, out = out ++ concat_lines [])
    by (intros out; simpl; now rewrite append_nil_r).
  assert (Hone : forall (out : string) (ms : list (string * Block W)),
             out ++ tick_line ms = out ++ concat_lines [tick_line ms])
    by (intros out ms; simpl; now rewrite append_nil_r).
  assert (Hline : forall ms : list (string * Block W),
             Forall is_tick_line [tick_line ms])
    by (intros ms; constructor; [apply tick_line_is_tick_line|constructor]).
  destruct ev as [|key|[raw|]|signum]; simpl.
  - unfold write_results. destruct (is_pending r write_task).
    + exists [tick_line (modules r)]. split; [apply Hone|apply Hline].
    + exists []. split; [apply Hnone|constructor].
  - exists []. split; [|constructor]. rewrite <- Hnone.
    unfold resume_loop. destruct (is_pending r (loop_task key)); [|reflexivity].
    destruct (dict_get key (modules r)) as [b|]; [|reflexivity].
    destruct (loop b (world r) (attrs b)) as [[w' m'] o].
    now destruct o.
  - unfold click_events. destruct (is_pending r click_task).
    + pose proof (click_event_frame loads r raw) as (_ & Hout & _).
      destruct (click_event loads r raw) as [r' [e|]]; simpl in *.
      * exists []. split; [rewrite <- Hnone; exact Hout|constructor].
      * exists [tick_line (modules r')]. rewrite Hout.
        split; [apply Hone|apply Hline].
    + exists []. split; [apply Hnone|constructor].
  - exists []. split; [|constructor]. rewrite <- Hnone.
    unfold click_events. now destruct (is_pending r click_task).
  - destruct (handler_of signum (handlers r)) as [key|];
      [|exists []; split; [apply Hnone|constructor]].
    unfold _handler. destruct (dict_get key (modules r)) as [b|];
      [|exists []; split; [apply Hnone|constructor]].
    destruct (signal_handler b signum (world r) (attrs b)) as [[w' m'] [e|]].
    + exists []. split; [apply Hnone|constructor].
    + eexists [tick_line _]. split; [apply Hone|apply Hline].
Qed.

Lemma run_events_stdout (evs : list event) (r : Runner W) :
  exists lines,
    stdout (run_events loads r evs) = stdout r ++ concat_lines lines
    /\ Forall is_tick_line lines.
Proof.
  revert r. induction evs as [|ev evs IH]; intros r; simpl.
  - exists []. split; [simpl; now rewrite append_nil_r|constructor].
  - destruct (step_stdout r ev) as (l1 & H1 & F1).
    destruct (IH (step loads r ev)) as (l2 & H2 & F2).
    exists (l1 ++ l2)%list. split.
    + rewrite H2, H1, concat_lines_app. apply append_assoc.
    + apply Forall_app. now split.
Qed.

Lemma tick_appends_line (r : Runner W) :
  is_pending r write_task = true ->
  step loads r Tick = write_result r
  /\ stdout (step loads r Tick) = stdout r ++ tick_line (modules r).
Proof. intros H. simpl. unfold write_results. now rewrite H. Qed.

End Output.

(** C8: [start] appends to the output the header, which is one line, an
    object with the version number [1] and the flag [click_events] set to
    [true], and then one line holding an opening bracket; everything the
    event loop writes after it is a sequence of lines, each of them an
    array of encoded block objects followed by a comma.  A tick of the
    pending writer appends exactly one such line, for the registry as it
    is. *)
Theorem output_stream_format {W : Type}
    (loads : string -> ClickEvent + Exception)
    (r : Runner W) (schedule : list event) :
  header_line
    = "{" ++ dq ++ "version" ++ dq ++ ": 1, "
          ++ dq ++ "click_events" ++ dq ++ ": true}" /\
  printable header_line = true /\
  header = header_line ++ nl ++ "[" ++ nl /\
  stdout (start loads r []) = stdout r ++ header /\
  (exists lines,
     stdout (start loads r schedule)
       = stdout r ++ header ++ concat_lines lines
     /\ Forall is_tick_line lines) /\
  (forall r0 : Runner W,
     is_pending r0 write_task = true ->
     stdout (step loads r0 Tick) = stdout r0 ++ tick_line (modules r0)
     /\ is_tick_line (tick_line (modules r0))).
Proof.
  split; [reflexivity|]. split; [reflexivity|]. split; [reflexivity|].
  split; [reflexivity|]. split.
  - destruct (run_events_stdout loads schedule (write_header r))
      as (lines & Hout & Hlines).
    exists lines. split; [|exact Hlines].
    unfold start. simpl. rewrite Hout. simpl. apply append_assoc.
  - intros r0 Hp. split.
    + now apply tick_appends_line.
    + apply tick_line_is_tick_line.
Qed.

Lemma output_stream_format_witness :
  let ok_run : code nat :=
    fun w m =>
      (w, update m (mkUpdateArgs "OK" None None None None None None None None
                                 None None None None None None), None) in
  let ok := polling (mkPollingModule (__init__ "Static" init_defaults) 1 ok_run) in
  let r := fst (register_module Demo.signal_signal Demo.runner0 ok []) in
  is_pending r write_task = true /\
  stdout (start Demo.loads r [Wake "Static__default"; Tick])
  = "{" ++ dq ++ "version" ++ dq ++ ": 1, "
        ++ dq ++ "click_events" ++ dq ++ ": true}" ++ nl
    ++ "[" ++ nl
    ++ "[{" ++ dq ++ "name" ++ dq ++ ": " ++ dq ++ "Static" ++ dq ++ ", "
            ++ dq ++ "instance" ++ dq ++ ": " ++ dq ++ "default" ++ dq ++ ", "
            ++ dq ++ "full_text" ++ dq ++ ": " ++ dq ++ "OK" ++ dq ++ ", "
            ++ dq ++ "urgent" ++ dq ++ ": false, "
            ++ dq ++ "separator" ++ dq ++ ": true, "
            ++ dq ++ "markup" ++ dq ++ ": " ++ dq ++ "none" ++ dq ++ "}],"
    ++ nl.
Proof.
  intros ok_run ok r.
  destruct (output_stream_format Demo.loads r []) as (_ & _ & _ & _ & _ & Htick).
  split; [reflexivity|].
  pose (r1 := run_events Demo.loads (write_header r) [Wake "Static__default"]).
  destruct (Htick r1 eq_refl) as (Hline & _).
  change (stdout (start Demo.loads r [Wake "Static__default"; Tick]))
    with (stdout (step Demo.loads r1 Tick)).
  rewrite Hline. reflexivity.
Defined.

(** ** The objects of the registry stay where they are *)

Lemma same_objects_refl {W : Type} (ms : list (string * Block W)) :
  same_objects ms ms.
Proof.
  induction ms as [|[k b] ms IH]; constructor; [|exact IH].
  split; [reflexivity|]. exists (attrs b). now destruct b.
Qed.

Lemma same_objects_trans {W : Type} (ms1 ms2 ms3 : list (string * Block W)) :
  same_objects ms1 ms2 -> same_objects ms2 ms3 -> same_objects ms1 ms3.
Proof.
  intros H12. revert ms3.
  induction H12 as [|kb1 kb2 ms1 ms2 (Hk & m & Hm) _ IH]; intros ms3 H23;
    inversion H23 as [|? kb3 ? ms3' (Hk' & m' & Hm') Hrest]; subst;
    constructor.
  - split; [congruence|]. exists m'. rewrite Hm', Hm. reflexivity.
  - now apply IH.
Qed.

Lemma store_same_objects {W : Type} (key : string) (m : Module_)
    (ms : list (string * Block W)) :
  same_objects ms (store key m ms).
Proof.
  induction ms as [|[k b] ms IH]; simpl; constructor; [|exact IH].
  destruct (String.eqb key k); simpl; (split; [reflexivity|]).
  - now exists m.
  - exists (attrs b). now destruct b.
Qed.

Lemma step_same_objects {W : Type} (loads : string -> ClickEvent + Exception)
    (r : Runner W) (ev : event) :
  same_objects (modules r) (modules (step loads r ev)).
Proof.
  destruct ev as [|key|[raw|]|signum]; simpl.
  - unfold write_results. destruct (is_pending r write_task);
      apply same_objects_refl.
  - unfold resume_loop.
    destruct (is_pending r (loop_task key)); [|apply same_objects_refl].
    destruct (dict_get key (modules r)) as [b|]; [|apply same_objects_refl].
    destruct (loop b (world r) (attrs b)) as [[w' m'] o].
    destruct o; simpl; apply store_same_objects.
  - unfold click_events.
    destruct (is_pending r click_task); [|apply same_objects_refl].
    assert (H : same_objects (modules r)
                  (modules (fst (click_event loads r raw)))).
    { unfold click_event. destruct (loads raw) as [ev|e];
        [|apply same_objects_refl].
      destruct (_get_module_from_key r (ce_name ev) (ce_instance ev)) as [b|];
        [|apply same_objects_refl].
      destruct (click_handler b (ce_args ev) (world r) (attrs b))
        as [[w' m'] e].
      simpl. apply store_same_objects. }
    destruct (click_event loads r raw) as [r' [e|]]; exact H.
  - unfold click_events. destruct (is_pending r click_task);
      apply same_objects_refl.
  - destruct (handler_of signum (handlers r)) as [key|];
      [|apply same_objects_refl].
    unfold _handler.
    destruct (dict_get key (modules r)) as [b|]; [|apply same_objects_refl].
    destruct (signal_handler b signum (world r) (attrs b)) as [[w' m'] [e|]];
      simpl; apply store_same_objects.
Qed.

Lemma run_events_same_objects {W : Type}
    (loads : string -> ClickEvent + Exception)
    (evs : list event) (r : Runner W) :
  same_objects (modules r) (modules (run_events loads r evs)).
Proof.
  revert r. induction evs as [|ev evs IH]; intros r; simpl.
  - apply same_objects_refl.
  - eapply same_objects_trans; [apply step_same_objects|apply IH].
Qed.

(** ** Registration order *)

Lemma register_all_success {W : Type}
    (signal_signal : Z -> option Exception) (bs : list (Block W * list Z))
    (r r0 : Runner W) :
  register_all signal_signal r bs = (r0, None) ->
  modules r0 = (modules r ++ map (fun reg => (key_of reg, fst reg)) bs)%list
  /\ tasks r0
     = (tasks r ++ map (fun reg => (loop_task (key_of reg), Pending)) bs)%list
  /\ stdout r0 = stdout r
  /\ (NoDup (keys (modules r)) -> NoDup (keys (modules r0))).
Proof.
  revert r. induction bs as [|[b signals] bs IH]; intros r; simpl.
  - intros [= <-]. rewrite !app_nil_r. auto.
  - destruct (register_module signal_signal r b signals) as [r' [e|]] eqn:Hreg;
      [discriminate|].
    destruct (register_module_success signal_signal r r' b signals Hreg)
      as (Hfresh & Hmods & Htasks & Hout & _).
    intros Hrest.
    destruct (IH r' Hrest) as (Hm & Ht & Ho & Hnd).
    split; [|split; [|split]].
    + rewrite Hm, Hmods, <- app_assoc. reflexivity.
    + rewrite Ht, Htasks, <- app_assoc. reflexivity.
    + now rewrite Ho.
    + intros Hr. apply Hnd. rewrite Hmods.
      unfold keys. rewrite map_app. apply NoDup_app.
      * exact Hr.
      * simpl. constructor; [intros []|constructor].
      * intros k Hk [<-|[]]. contradiction.
Qed.

(** With distinct keys, the objects of a tick are those found under the
    keys, taken in the order of the keys. *)
Lemma objects_by_key {W : Type} (ms : list (string * Block W)) :
  NoDup (keys ms) ->
  map (fun b => json_dumps (result (attrs b))) (values ms)
  = map (object_at ms) (keys ms).
Proof.
  induction ms as [|[k b] ms IH]; simpl; [reflexivity|].
  intros Hnd. inversion Hnd as [|? ? Hnotin Hnd']; subst.
  f_equal.
  - unfold object_at. simpl. now rewrite String.eqb_refl.
  - rewrite IH by assumption. apply map_ext_in. intros k' Hk'.
    unfold object_at. simpl.
    destruct (String.eqb_spec k' k) as [->|]; [contradiction|reflexivity].
Qed.

(** C4: after registrations that all succeeded on a new runner, the
    registry lists the blocks under their keys in the order of the
    registrations.  After [start] has written the header and the event loop
    has gone through any schedule, whichever blocks it refreshed, the keys
    of the registry are in that same order and each key still holds the
    block registered under it, the writer is pending, and the line of a
    tick is the array, in that order, of what the block under each key
    serializes to at that moment. *)
Theorem output_follows_registration_order {W : Type}
    (signal_signal : Z -> option Exception)
    (loads : string -> ClickEvent + Exception)
    (sleep : Z) (w0 : W) (bs : list (Block W * list Z)) (r0 : Runner W)
    (Hregistered : register_all signal_signal (Runner_init sleep w0) bs
                   = (r0, None)) :
  keys (modules r0) = map key_of bs /\
  values (modules r0) = map fst bs /\
  length (modules r0) = length bs /\
  (forall evs,
     let r := run_events loads (write_header r0) evs in
     keys (modules r) = map key_of bs /\
     same_objects (map (fun reg => (key_of reg, fst reg)) bs) (modules r) /\
     step loads r Tick = write_result r /\
     stdout (write_result r)
     = stdout r ++ "[" ++ join "," (map (object_at (modules r)) (map key_of bs))
                ++ "]," ++ nl).
Proof.
  destruct (register_all_success signal_signal bs _ _ Hregistered)
    as (Hm & Ht & _ & Hnd).
  simpl in Hm, Ht.
  assert (Hkeys : keys (modules r0) = map key_of bs).
  { rewrite Hm. unfold keys. rewrite map_map. reflexivity. }
  split; [exact Hkeys|]. split; [|split].
  - rewrite Hm. unfold values. rewrite map_map. reflexivity.
  - rewrite Hm. apply length_map.
  - intros evs r.
    assert (Hk : keys (modules r) = map key_of bs)
      by (unfold r; now rewrite run_events_keys).
    split; [exact Hk|]. split; [|split].
    + rewrite <- Hm. apply (run_events_same_objects loads evs (write_header r0)).
    + apply tick_appends_line. unfold r. apply writer_stays_pending.
      unfold is_pending. simpl. rewrite Ht. reflexivity.
    + simpl. unfold tick_line. rewrite objects_by_key, Hk; [reflexivity|].
      rewrite Hk, <- Hkeys. apply Hnd. constructor.
Qed.

Lemma output_follows_registration_order_witness :
  let bs := [(polling Demo.clock, []); (polling Demo.disk_home, []);
             (polling Demo.temperature, [10%Z])] in
  register_all Demo.signal_signal Demo.runner0 bs = (Demo.runner3, None) /\
  keys (modules Demo.runner3)
    = ["ClockModule__default"; "Disk__/home"; "Temp__none"] /\
  keys (modules (run_events Demo.loads (write_header Demo.runner3)
                   [Wake "Temp__none"; Tick; Wake "Disk__/home";
                    Input (Some "home}"); Wake "ClockModule__default"]))
    = ["ClockModule__default"; "Disk__/home"; "Temp__none"].
Proof.
  intros bs.
  assert (Hreg : register_all Demo.signal_signal Demo.runner0 bs
                 = (Demo.runner3, None))
    by reflexivity.
  destruct (output_follows_registration_order Demo.signal_signal Demo.loads
              1 0 bs Demo.runner3 Hreg) as (Hkeys & _ & _ & Hlater).
  split; [exact Hreg|]. split; [exact Hkeys|].
  destruct (Hlater [Wake "Temp__none"; Tick; Wake "Disk__/home";
                    Input (Some "home}"); Wake "ClockModule__default"])
    as (Hk & _).
  exact Hk.
Defined.

(** * Further properties of [i3pyblocks/core.py] *)

(** ** Snapshots and what they serialize to *)

Lemma result_of_update (m : Module_) (a : UpdateArgs) (k : string) :
  dict_get k (result (update m a))
  = match dict_get k (_state (update m a)) with
    | Some (Some v) => Some v
    | _ => None
    end.
Proof. unfold result. apply drop_none_get, update_NoDup. Qed.

Lemma drop_none_NoDup (s : state) : NoDup (keys s) -> NoDup (keys (drop_none s)).
Proof.
  induction s as [|[k [v|]] s IH]; simpl; intros Hnd;
    inversion Hnd as [|? ? Hnotin Hnd']; subst.
  - constructor.
  - constructor; [|now apply IH]. intros HIn. apply Hnotin.
    now apply drop_none_keys.
  - now apply IH.
Qed.

Lemma updated_identity (cls : string) (ia : InitArgs) (us : list UpdateArgs) :
  name (updated cls ia us) = (if truthy (i_name ia) then fmt (i_name ia) else cls)
  /\ instance (updated cls ia us) = i_instance ia.
Proof.
  unfold updated.
  assert (H : name (__init__ cls ia)
              = (if truthy (i_name ia) then fmt (i_name ia) else cls)
              /\ instance (__init__ cls ia) = i_instance ia).
  { split; [|reflexivity]. simpl. now destruct (i_name ia). }
  revert H. generalize (__init__ cls ia).
  induction us as [|u us IH]; simpl; [trivial|].
  intros m Hm. apply IH. exact Hm.
Qed.

(** X1: the object a block serializes to, after its construction and any
    updates, always has [name], which is the name given to the constructor
    when that is neither [None] nor empty and the name of the class
    otherwise, and [full_text], which is the text of the last update; it has
    [instance] and [short_text] exactly when they are not [None]; and no
    key occurs twice in it. *)
Theorem emitted_object_fields
    (cls : string) (ia : InitArgs) (us : list UpdateArgs) (a : UpdateArgs) :
  let object := result (update (updated cls ia us) a) in
  dict_get "name" object
    = Some (VStr (if truthy (i_name ia) then fmt (i_name ia) else cls)) /\
  dict_get "full_text" object = Some (VStr (full_text a)) /\
  dict_get "instance" object = option_map VStr (i_instance ia) /\
  dict_get "short_text" object = option_map VStr (short_text a) /\
  dict_get "full_text" (result (__init__ cls ia)) = Some (VStr "") /\
  NoDup (keys object).
Proof.
  intros object. unfold object.
  destruct (updated_identity cls ia us) as (Hname & Hinst).
  rewrite !result_of_update, !update_state_fields.
  cbn [dict_get String.eqb Ascii.eqb Bool.eqb].
  rewrite Hname, Hinst.
  repeat split.
  - unfold ostr. now destruct (i_instance ia).
  - unfold ostr. now destruct (short_text a).
  - unfold __init__. rewrite result_of_update. reflexivity.
  - unfold result. apply drop_none_NoDup, update_NoDup.
Qed.

(** X2: updates do not accumulate.  After any sequence of updates ending
    with [update(a)], the block is what [update(a)] alone makes of it, so a
    style passed to one update is gone at the next; in particular repeating
    an update changes nothing. *)
Theorem update_absorbs (m : Module_) (us : list UpdateArgs) (a : UpdateArgs) :
  fold_left update (us ++ [a])%list m = update m a /\
  result (fold_left update (us ++ [a])%list m) = result (update m a) /\
  update (update m a) a = update m a.
Proof.
  assert (H : fold_left update (us ++ [a])%list m = update m a).
  { revert m. induction us as [|u us IH]; intros m; simpl; [reflexivity|].
    now rewrite IH. }
  rewrite H. repeat split.
Qed.

(** ** From the output back to the block *)

(** X3: take a block whose snapshot was stored by [update], and register
    it under a key that is new.  The click event the bar sends for the
    object the block serializes to, which carries the [name] of the object
    and its [instance] when it has one, resolves to that block, and
    [click_event] does what the block's [click_handler] does with the
    arguments of the event. *)
Theorem click_round_trip {W : Type}
    (signal_signal : Z -> option Exception)
    (loads : string -> ClickEvent + Exception)
    (r r' : Runner W) (b : Block W) (signals : list Z)
    (m : Module_) (u : UpdateArgs) (raw : string) (a : ClickArgs)
    (Hsnapshot : attrs b = update m u)
    (Hregistered : register_module signal_signal r b signals = (r', None))
    (Hparse : loads raw = inl (click_on (result (attrs b)) a)) :
  let ev := click_on (result (attrs b)) a in
  ce_name ev = Some (name (attrs b)) /\
  ce_instance ev = instance (attrs b) /\
  _get_module_from_key r' (ce_name ev) (ce_instance ev) = Some b /\
  click_event loads r' raw
  = (let '(w', m', e) := click_handler b a (world r') (attrs b) in
     (set_world (set_modules r' (store (_get_module_key (attrs b)) m'
                                       (modules r'))) w', e)).
Proof.
  intros ev.
  assert (Hname : ce_name ev = Some (name (attrs b))).
  { unfold ev, click_on. cbn [ce_name]. rewrite Hsnapshot, result_of_update.
    reflexivity. }
  assert (Hinst : ce_instance ev = instance (attrs b)).
  { unfold ev, click_on. cbn [ce_instance].
    rewrite Hsnapshot, result_of_update. simpl.
    now destruct (instance m). }
  destruct (register_module_success signal_signal r r' b signals Hregistered)
    as (Hfresh & Hmods & _).
  assert (Hget : _get_module_from_key r' (ce_name ev) (ce_instance ev) = Some b).
  { unfold _get_module_from_key. rewrite Hname, Hinst. cbn [fmt].
    change (dict_get (_get_module_key (attrs b)) (modules r') = Some b).
    rewrite Hmods. now apply dict_get_app_new. }
  split; [exact Hname|]. split; [exact Hinst|]. split; [exact Hget|].
  unfold click_event. rewrite Hparse. fold ev. rewrite Hget.
  cbn [ce_args ev click_on]. rewrite Hname, Hinst. cbn [fmt].
  reflexivity.
Qed.

Lemma click_round_trip_witness :
  let b := polling Demo.temperature in
  let r' := fst (register_module Demo.signal_signal Demo.runner0 b []) in
  let loads := fun _ : string =>
                 inl (click_on (result (attrs b)) Demo.left_click)
                 : ClickEvent + Exception in
  dict_get "instance" (result (attrs b)) = None /\
  _get_module_key (attrs b) = "Temp__none" /\
  _get_module_from_key r' (Some "Temp") None = Some b /\
  world (fst (click_event loads r' "any}")) = 1.
Proof.
  intros b r' loads.
  destruct (click_round_trip Demo.signal_signal loads Demo.runner0 r' b []
              (attrs b) update_defaults "any}" Demo.left_click
              eq_refl eq_refl eq_refl) as (_ & _ & Hget & Hev).
  split; [reflexivity|]. split; [reflexivity|]. split; [exact Hget|].
  rewrite Hev. reflexivity.
Defined.

(** ** What holds in every state of a runner *)

Lemma set_status_names (t : task) (s : status) (ts : tasklist) :
  map fst (set_status t s ts) = map fst ts.
Proof.
  induction ts as [|[t' s'] ts IH]; simpl; [reflexivity|].
  rewrite IH. now destruct (task_eqb t t').
Qed.

Lemma register_module_outcome {W : Type}
    (signal_signal : Z -> option Exception)
    (r : Runner W) (b : Block W) (signals : list Z) :
  (In (_get_module_key (attrs b)) (keys (modules r))
   /\ fst (register_module signal_signal r b signals) = r)
  \/ (~ In (_get_module_key (attrs b)) (keys (modules r))
      /\ modules (fst (register_module signal_signal r b signals))
         = (modules r ++ [(_get_module_key (attrs b), b)])%list
      /\ tasks (fst (register_module signal_signal r b signals))
         = (tasks r ++ [(loop_task (_get_module_key (attrs b)), Pending)])%list
      /\ stdout (fst (register_module signal_signal r b signals)) = stdout r).
Proof.
  destruct (in_dec string_dec (_get_module_key (attrs b)) (keys (modules r)))
    as [Hdup|Hfresh].
  - left. split; [exact Hdup|].
    destruct (register_module_duplicate signal_signal r b signals Hdup)
      as (e & He & _).
    now rewrite He.
  - right. split; [exact Hfresh|].
    destruct (register_module_fresh signal_signal r b signals Hfresh)
      as (r' & e & Hreg & Hm & Ht & Ho & _).
    rewrite Hreg. simpl. auto.
Qed.

(** X4: in every state a runner reaches before [start] returns, whatever
    was registered, whether the registration succeeded, was refused for its
    key or raised in [signal.signal], and whatever the event loop went
    through, no key occurs twice in the registry, the tasks are the
    writer, the reader and then exactly one loop task per registered block
    in the order of the registry, and the writer is pending. *)
Theorem runner_invariant {W : Type}
    (signal_signal : Z -> option Exception)
    (loads : string -> ClickEvent + Exception) (r : Runner W)
    (Hreach : reachable signal_signal loads r) :
  NoDup (keys (modules r)) /\
  map fst (tasks r)
    = write_task :: click_task :: map loop_task (keys (modules r)) /\
  is_pending r write_task = true.
Proof.
  induction Hreach as [sleep w|r b signals _ (Hnd & Hts & Hw)
                      |r ev _ (Hnd & Hts & Hw)].
  - repeat split; constructor.
  - destruct (register_module_outcome signal_signal r b signals)
      as [(_ & ->)|(Hfresh & Hm & Ht & Ho)].
    + repeat split; assumption.
    + rewrite Hm, Ht. unfold keys. rewrite !map_app. simpl.
      split; [|split].
      * apply NoDup_app; [exact Hnd|constructor; [intros []|constructor]|].
        intros k Hk [<-|[]]. contradiction.
      * fold (keys (modules r)). rewrite Hts. reflexivity.
      * unfold is_pending in *. rewrite Ht.
        destruct (tasks r) as [|[t s] ts]; [discriminate|].
        injection Hts as -> _. simpl in *. exact Hw.
  - rewrite (step_keys loads r ev).
    split; [exact Hnd|]. split.
    + destruct (step_tasks loads r ev) as [->|(t & _ & ->)];
        [|rewrite set_status_names]; exact Hts.
    + unfold is_pending in *. now rewrite step_writer_status.
Qed.

Lemma runner_invariant_witness :
  let r0 := fst (register_module Demo.signal_signal Demo.runner3
                   (polling Demo.clock) [12%Z]) in
  let r1 := fst (register_module Demo.signal_signal r0
                   (polling (mkPollingModule
                               (__init__ "LoadModule" init_defaults)
                               5 Demo.clock_run)) [12%Z; 9%Z]) in
  let r := run_events Demo.loads r1
             [Wake "Temp__none"; Tick; Input (Some "var}"); Signal 10%Z] in
  reachable Demo.signal_signal Demo.loads r /\
  snd (register_module Demo.signal_signal r0
         (polling (mkPollingModule (__init__ "LoadModule" init_defaults)
                                   5 Demo.clock_run)) [12%Z; 9%Z]) <> None /\
  map fst (tasks r)
  = [write_task; click_task; loop_task "ClockModule__default";
     loop_task "Disk__/home"; loop_task "Temp__none";
     loop_task "LoadModule__default"].
Proof.
  intros r0 r1 r.
  assert (Hr : reachable Demo.signal_signal Demo.loads r).
  { unfold r, run_events. cbn [fold_left].
    do 4 apply reach_step.
    unfold r1. apply reach_register.
    unfold r0. apply reach_register.
    change Demo.runner3
      with (fst (register_module Demo.signal_signal
                   (fst (register_module Demo.signal_signal
                           (fst (register_module Demo.signal_signal
                                   Demo.runner0 (polling Demo.clock) []))
                           (polling Demo.disk_home) []))
                   (polling Demo.temperature) [10%Z])).
    do 3 apply reach_register.
    apply reach_init. }
  split; [exact Hr|]. split; [discriminate|].
  destruct (runner_invariant Demo.signal_signal Demo.loads r Hr)
    as (_ & Hts & _).
  rewrite Hts. reflexivity.
Defined.

(** ** Signals *)

Lemma handler_of_filter (n n' : Z) (hs : list (Z * string)) :
  n <> n' ->
  handler_of n (filter (fun h => negb (Z.eqb (fst h) n')) hs) = handler_of n hs.
Proof.
  intros Hne. induction hs as [|[n0 k] hs IH]; simpl; [reflexivity|].
  destruct (Z.eqb_spec n0 n') as [->|Hn0]; simpl.
  - destruct (Z.eqb_spec n n'); [contradiction|exact IH].
  - destruct (Z.eqb n n0); [reflexivity|exact IH].
Qed.

Lemma handler_of_install (n n' : Z) (key : string) (hs : list (Z * string)) :
  handler_of n (install n' key hs)
  = if Z.eqb n n' then Some key else handler_of n hs.
Proof.
  unfold install. simpl. destruct (Z.eqb_spec n n') as [->|Hne]; [reflexivity|].
  now apply handler_of_filter.
Qed.

Lemma handler_of_installs (n : Z) (key : string) (signums : list Z)
    (hs : list (Z * string)) :
  handler_of n (fold_left (fun hs' n' => install n' key hs') signums hs)
  = if existsb (Z.eqb n) signums then Some key else handler_of n hs.
Proof.
  revert hs. induction signums as [|n' signums IH]; intros hs; simpl;
    [reflexivity|].
  rewrite IH, handler_of_install.
  destruct (Z.eqb n n'), (existsb (Z.eqb n) signums); reflexivity.
Qed.

Lemma existsb_Zeqb_In (n : Z) (l : list Z) :
  existsb (Z.eqb n) l = true <-> In n l.
Proof.
  rewrite existsb_exists. split.
  - intros (y & HIn & E). apply Z.eqb_eq in E. now subst.
  - intros HIn. exists n. split; [assumption|apply Z.eqb_refl].
Qed.

Lemma handler_of_installed (n : Z) (key : string) (signums : list Z)
    (hs : list (Z * string)) :
  (In n signums ->
   handler_of n (fold_left (fun hs' n' => install n' key hs') signums hs)
   = Some key) /\
  (~ In n signums ->
   handler_of n (fold_left (fun hs' n' => install n' key hs') signums hs)
   = handler_of n hs).
Proof.
  rewrite handler_of_installs.
  destruct (existsb (Z.eqb n) signums) eqn:E.
  - apply existsb_Zeqb_In in E. split; [reflexivity|contradiction].
  - split; [|reflexivity]. intros HIn. apply existsb_Zeqb_In in HIn. congruence.
Qed.

(** The receivers after a registration under a new key: handlers were
    installed for the numbers up to the first that [signal.signal]
    refused, or for all of them. *)
Lemma register_module_handlers {W : Type}
    (signal_signal : Z -> option Exception)
    (r : Runner W) (b : Block W) (signals : list Z) :
  ~ In (_get_module_key (attrs b)) (keys (modules r)) ->
  let key := _get_module_key (attrs b) in
  match snd (register_module signal_signal r b signals) with
  | None =>
      Forall (fun n => signal_signal n = None) signals /\
      handlers (fst (register_module signal_signal r b signals))
      = fold_left (fun hs n => install n key hs) signals (handlers r)
  | Some exn =>
      exists before refused after,
        signals = (before ++ refused :: after)%list /\
        Forall (fun n => signal_signal n = None) before /\
        signal_signal refused = Some exn /\
        handlers (fst (register_module signal_signal r b signals))
        = fold_left (fun hs n => install n key hs) before (handlers r)
  end.
Proof.
  intros Hfresh key. unfold register_module. fold key.
  destruct (existsb (String.eqb key) (keys (modules r))) eqn:E.
  - apply existsb_eqb_In in E. contradiction.
  - simpl. destruct signals as [|n signals]; simpl.
    + split; [constructor|reflexivity].
    + unfold register_signal.
      pose proof (install_all_spec signal_signal key (n :: signals)
                    (handlers r)) as Hspec.
      cbn [handlers _register_task set_tasks set_modules].
      destruct (install_all signal_signal key (n :: signals) (handlers r))
        as [hs' [e|]]; simpl; exact Hspec.
Qed.

(** X5: a registration under a new key with a list of signal numbers makes
    the new block the receiver of each number [signal.signal] accepted
    before it refused one, taking them away from whichever block had them,
    and leaves every other number with the receiver it had.  When no
    number is refused those are all the numbers of the list; when one is
    refused its exception is raised, and the numbers listed after it are
    left alone too.  A registration refused for its key changes no
    receiver. *)
Theorem register_signal_latest_wins {W : Type}
    (signal_signal : Z -> option Exception)
    (r : Runner W) (b : Block W) (signals : list Z) (n : Z) :
  let r' := fst (register_module signal_signal r b signals) in
  let e := snd (register_module signal_signal r b signals) in
  let key := _get_module_key (attrs b) in
  (In key (keys (modules r)) -> handlers r' = handlers r) /\
  (~ In key (keys (modules r)) -> e = None ->
     Forall (fun n0 => signal_signal n0 = None) signals /\
     (In n signals -> handler_of n (handlers r') = Some key) /\
     (~ In n signals ->
        handler_of n (handlers r') = handler_of n (handlers r))) /\
  (~ In key (keys (modules r)) -> forall exn, e = Some exn ->
     exists before refused after,
       signals = (before ++ refused :: after)%list /\
       Forall (fun n0 => signal_signal n0 = None) before /\
       signal_signal refused = Some exn /\
       (In n before -> handler_of n (handlers r') = Some key) /\
       (~ In n before ->
          handler_of n (handlers r') = handler_of n (handlers r))).
Proof.
  intros r' e key. split; [|split].
  - intros Hdup.
    destruct (register_module_duplicate signal_signal r b signals Hdup)
      as (e0 & He & _).
    unfold r'. now rewrite He.
  - intros Hfresh He.
    pose proof (register_module_handlers signal_signal r b signals Hfresh)
      as Hh.
    fold e r' key in Hh. cbv zeta in Hh. fold e r' key in Hh.
    rewrite He in Hh. destruct Hh as (Hall & Hh).
    rewrite Hh. split; [exact Hall|].
    apply handler_of_installed.
  - intros Hfresh exn He.
    pose proof (register_module_handlers signal_signal r b signals Hfresh)
      as Hh.
    fold e r' key in Hh. cbv zeta in Hh. fold e r' key in Hh.
    rewrite He in Hh.
    destruct Hh as (before & refused & after & Hsplit & Hall & Hrefused & Hh).
    exists before, refused, after.
    split; [exact Hsplit|]. split; [exact Hall|]. split; [exact Hrefused|].
    rewrite Hh. apply handler_of_installed.
Qed.

Lemma register_signal_latest_wins_witness :
  let r1 := fst (register_module Demo.signal_signal Demo.runner0
                   (polling Demo.clock) [10%Z; 12%Z]) in
  let r2 := fst (register_module Demo.signal_signal r1
                   (polling Demo.temperature) [12%Z; 9%Z; 10%Z]) in
  handler_of 12 (handlers r1) = Some "ClockModule__default" /\
  handler_of 10 (handlers r1) = Some "ClockModule__default" /\
  (exists before refused after,
     [12%Z; 9%Z; 10%Z] = (before ++ refused :: after)%list /\
     Demo.signal_signal refused
       = Some (mkException "OSError" "[Errno 22] Invalid argument") /\
     (~ In 10%Z before -> handler_of 10 (handlers r2) = handler_of 10 (handlers r1))) /\
  handler_of 12 (handlers r2) = Some "Temp__none" /\
  handler_of 10 (handlers r2) = Some "ClockModule__default".
Proof.
  intros r1 r2.
  assert (Hfresh0 : ~ In (_get_module_key (attrs (polling Demo.clock)))
                         (keys (modules Demo.runner0))) by (intros []).
  assert (Hfresh1 : ~ In (_get_module_key (attrs (polling Demo.temperature)))
                         (keys (modules r1))).
  { intros [H|[]]. discriminate. }
  destruct (register_signal_latest_wins Demo.signal_signal Demo.runner0
              (polling Demo.clock) [10%Z; 12%Z] 12%Z)
    as (_ & Hok12 & _).
  destruct (Hok12 Hfresh0 eq_refl) as (_ & Hin12 & _).
  destruct (register_signal_latest_wins Demo.signal_signal Demo.runner0
              (polling Demo.clock) [10%Z; 12%Z] 10%Z)
    as (_ & Hok10 & _).
  destruct (Hok10 Hfresh0 eq_refl) as (_ & Hin10 & _).
  destruct (register_signal_latest_wins Demo.signal_signal r1
              (polling Demo.temperature) [12%Z; 9%Z; 10%Z] 10%Z)
    as (_ & _ & Hraise).
  destruct (Hraise Hfresh1 _ eq_refl)
    as (before & refused & after & Hsplit & _ & Hrefused & _ & Hout).
  split; [apply Hin12; right; now left|].
  split; [apply Hin10; now left|].
  split; [exists before, refused, after; auto|].
  split; reflexivity.
Defined.



(** ** Clicks *)

(** X7: a click that is parsed and dispatched without an exception is
    followed at once by one line of output, written for the registry as
    the handler left it; the reader stays pending and no task changes. *)
Theorem click_writes_refreshed_line {W : Type}
    (loads : string -> ClickEvent + Exception)
    (r r1 : Runner W) (raw : string)
    (Hreader : is_pending r click_task = true)
    (Hclick : click_event loads r raw = (r1, None)) :
  let r' := step loads r (Input (Some raw)) in
  r' = write_result r1 /\
  stdout r' = stdout r ++ tick_line (modules r1) /\
  tasks r' = tasks r /\
  is_pending r' click_task = true.
Proof.
  intros r'.
  pose proof (click_event_frame loads r raw) as (Ht & Hout & _).
  rewrite Hclick in Ht, Hout. simpl in Ht, Hout.
  assert (Hr' : r' = write_result r1).
  { unfold r'. simpl. unfold click_events. now rewrite Hreader, Hclick. }
  rewrite Hr'. repeat split.
  - simpl. now rewrite Hout.
  - simpl. exact Ht.
  - unfold is_pending in *. simpl. now rewrite Ht.
Qed.

Lemma click_writes_refreshed_line_witness :
  let r := Demo.runner3 in
  let r' := step Demo.loads r (Input (Some "home}")) in
  is_pending r click_task = true /\
  is_pending r' click_task = true /\
  option_map (fun b => dict_get "full_text" (result (attrs b)))
             (dict_get "Disk__/home" (modules r'))
    = Some (Some (VStr "tick 0")) /\
  stdout r' = stdout r ++ tick_line (modules r').
Proof.
  intros r r'.
  destruct (click_writes_refreshed_line Demo.loads r
              (fst (click_event Demo.loads r "home}")) "home}"
              eq_refl eq_refl) as (Hr' & Hout & _ & Hp).
  fold r' in Hr', Hout, Hp.
  split; [reflexivity|]. split; [exact Hp|]. split; [reflexivity|].
  rewrite Hout, Hr'. reflexivity.
Defined.

(** X8: an exception of [run] is turned into the diagnostic snapshot by the
    loop only.  When a click reaches a polling block with the default
    handler and [run] raises, the block keeps the attributes [run] left,
    no diagnostic is stored, the exception leaves [click_event] and ends
    the reader, nothing is written, and the task of the block's own loop
    is as it was. *)
Theorem click_failure_is_not_shown {W : Type}
    (loads : string -> ClickEvent + Exception)
    (self : PollingModule W) (r : Runner W) (raw : string) (ev : ClickEvent)
    (b : Block W) (w' : W) (m' : Module_) (e : Exception)
    (Hparse : loads raw = inl ev)
    (Hfound : _get_module_from_key r (ce_name ev) (ce_instance ev) = Some b)
    (Hdefault : click_handler b = PollingModule_click_handler self)
    (Hreader : is_pending r click_task = true)
    (Hraise : run self (world r) (attrs b) = (w', m', Some e)) :
  let key := fmt (ce_name ev) ++ "__" ++ or_else (ce_instance ev) "none" in
  let r' := step loads r (Input (Some raw)) in
  snd (click_event loads r raw) = Some e /\
  dict_get key (modules r') = Some (set_attrs b m') /\
  is_pending r' click_task = false /\
  stdout r' = stdout r /\
  task_status (loop_task key) (tasks r') = task_status (loop_task key) (tasks r).
Proof.
  intros key r'.
  assert (Hev : click_event loads r raw
                = (set_world (set_modules r (store key m' (modules r))) w',
                   Some e)).
  { unfold click_event. rewrite Hparse, Hfound, Hdefault.
    unfold PollingModule_click_handler. now rewrite Hraise. }
  assert (Hr' : r' = finish (set_world (set_modules r
                                (store key m' (modules r))) w') click_task).
  { unfold r'. simpl. unfold click_events. now rewrite Hreader, Hev. }
  split; [now rewrite Hev|].
  rewrite Hr'. simpl. split; [|split; [|split]].
  - rewrite store_get_same. unfold _get_module_from_key in Hfound.
    fold key in Hfound. now rewrite Hfound.
  - unfold is_pending. simpl. rewrite set_status_same.
    unfold is_pending in Hreader.
    now destruct (task_status click_task (tasks r)) as [[]|].
  - reflexivity.
  - apply set_status_other. discriminate.
Qed.

Lemma click_failure_is_not_shown_witness :
  let loads := fun _ : string =>
                 inl (mkClickEvent (Some "Temp") None Demo.left_click)
                 : ClickEvent + Exception in
  let r := run_events loads Demo.runner3
             [Wake "ClockModule__default"; Wake "ClockModule__default"] in
  let r' := step loads r (Input (Some "temp}")) in
  world r = 2 /\
  is_pending r' click_task = false /\
  is_pending r' (loop_task "Temp__none") = true /\
  option_map (fun b => dict_get "urgent" (result (attrs b)))
             (dict_get "Temp__none" (modules r'))
    = Some (Some (VBool false)).
Proof.
  intros loads r r'.
  destruct (click_failure_is_not_shown loads Demo.temperature r "temp}"
              (mkClickEvent (Some "Temp") None Demo.left_click)
              (polling Demo.temperature) 3 (attrs (polling Demo.temperature))
              (mkException "OSError" "sensor unreachable")
              eq_refl eq_refl eq_refl eq_refl eq_refl)
    as (_ & Hget & Hreader & _ & Hloop).
  fold r' in Hget, Hreader, Hloop.
  split; [reflexivity|]. split; [exact Hreader|]. split.
  - change (task_status (loop_task "Temp__none") (tasks r')
            = task_status (loop_task "Temp__none") (tasks r)) in Hloop.
    unfold is_pending. now rewrite Hloop.
  - change (dict_get "Temp__none" (modules r')
            = Some (set_attrs (polling Demo.temperature)
                              (attrs (polling Demo.temperature)))) in Hget.
    now rewrite Hget.
Defined.

(** ** A loop ends by an exception only *)

Lemma step_tasks_by_event {W : Type}
    (loads : string -> ClickEvent + Exception) (r : Runner W) (ev : event) :
  tasks (step loads r ev) = tasks r
  \/ (exists k, ev = Wake k
                /\ tasks (step loads r ev)
                   = set_status (loop_task k) Finished (tasks r))
  \/ (exists input, ev = Input input
                    /\ tasks (step loads r ev)
                       = set_status click_task Finished (tasks r)).
Proof.
  destruct ev as [|key|[raw|]|signum]; simpl.
  - unfold write_results. destruct (is_pending r write_task); now left.
  - unfold resume_loop. destruct (is_pending r (loop_task key)); [|now left].
    destruct (dict_get key (modules r)) as [b|]; [|now left].
    destruct (loop b (world r) (attrs b)) as [[w' m'] o].
    destruct o; simpl; [now left| |]; right; left; now exists key.
  - unfold click_events. destruct (is_pending r click_task); [|now left].
    pose proof (click_event_frame loads r raw) as (Ht & _).
    destruct (click_event loads r raw) as [r' [e|]]; simpl in *.
    + right. right. exists (Some raw). now rewrite Ht.
    + now left.
  - unfold click_events. destruct (is_pending r click_task); [|now left].
    right. right. now exists None.
  - destruct (handler_of signum (handlers r)) as [key|]; [|now left].
    unfold _handler. destruct (dict_get key (modules r)) as [b|]; [|now left].
    destruct (signal_handler b signum (world r) (attrs b)) as [[w' m'] [e|]];
      now left.
Qed.

Lemma same_objects_get {W : Type} (ms ms' : list (string * Block W))
    (key : string) (b : Block W) :
  same_objects ms ms' -> dict_get key ms = Some b ->
  exists m, dict_get key ms' = Some (set_attrs b m).
Proof.
  intros H. induction H as [|[k0 b0] [k1 b1] ms ms' (Hk & m & Hm) _ IH];
    simpl; [discriminate|].
  simpl in Hk, Hm. subst k1 b1.
  destruct (String.eqb key k0); [|exact IH].
  intros [= ->]. now exists m.
Qed.

(** X9: the loop of a polling block whose [run] never raises never ends:
    after any schedule its task is still pending and the registry still
    holds the block under its key.  So the loop of a polling block ends by
    an exception of [run], or by the cancellation at the end of [start],
    and by nothing else. *)
Theorem polling_loop_keeps_running {W : Type}
    (loads : string -> ClickEvent + Exception)
    (self : PollingModule W) (r : Runner W) (key : string) (b : Block W)
    (evs : list event)
    (Hsafe : forall w m, snd (run self w m) = None)
    (Hreg : dict_get key (modules r) = Some b)
    (Hloop : loop b = PollingModule_loop self)
    (Hpending : is_pending r (loop_task key) = true) :
  is_pending (run_events loads r evs) (loop_task key) = true /\
  exists m, dict_get key (modules (run_events loads r evs))
            = Some (set_attrs b m).
Proof.
  apply (run_events_invariant loads
           (fun r0 => is_pending r0 (loop_task key) = true /\
                      exists m, dict_get key (modules r0)
                                = Some (set_attrs b m))).
  - intros r0 ev (Hp & m & Hm). split.
    + destruct (step_tasks_by_event loads r0 ev)
        as [E|[(k & -> & E)|(input & -> & E)]].
      * unfold is_pending in *. now rewrite E.
      * destruct (String.eqb_spec k key) as [->|Hne].
        -- simpl. unfold resume_loop. rewrite Hp, Hm. simpl.
           rewrite Hloop. unfold PollingModule_loop.
           pose proof (Hsafe (world r0) m) as Hs.
           destruct (run self (world r0) m) as [[w' m'] e]. simpl in Hs.
           subst e. simpl. exact Hp.
        -- unfold is_pending in *. rewrite E.
           rewrite set_status_other by congruence. exact Hp.
      * unfold is_pending in *. rewrite E.
        rewrite set_status_other by discriminate. exact Hp.
    + destruct (same_objects_get _ _ key _ (step_same_objects loads r0 ev) Hm)
        as (m1 & Hm1).
      exists m1. exact Hm1.
  - split; [exact Hpending|]. exists (attrs b). rewrite Hreg. now destruct b.
Qed.

Lemma polling_loop_keeps_running_witness :
  let key := "ClockModule__default" in
  let evs := [Wake key; Tick; Wake "Temp__none"; Wake "Temp__none";
              Wake "Temp__none"; Input (Some "var}"); Wake key] in
  (forall w m, snd (Demo.clock_run w m) = None) /\
  is_pending (run_events Demo.loads Demo.runner3 evs) (loop_task key) = true /\
  is_pending (run_events Demo.loads Demo.runner3 evs) (loop_task "Temp__none")
    = false.
Proof.
  intros key evs.
  assert (Hsafe : forall w m, snd (run Demo.clock w m) = None)
    by (intros w m; reflexivity).
  split; [exact Hsafe|]. split; [|reflexivity].
  exact (proj1 (polling_loop_keeps_running Demo.loads Demo.clock Demo.runner3
                  key (polling Demo.clock) evs Hsafe eq_refl eq_refl eq_refl)).
Defined.

(** * Properties of [aio_i3status/core.py] *)

(** X10: a module constructed with a name has no attribute [name] at all,
    because [__init__] assigns it only when no name is given; [format] then
    raises [AttributeError].  A module constructed without a name, or with
    an empty one, is named after its class, and [format] returns a
    dictionary with that name. *)
Theorem aio_given_name_is_lost (class_name : string) (a : InitArgs) :
  (truthy (i_name a) = true ->
     Aio.name (Aio.__init__ class_name a) = None /\
     exists e, Aio.format (Aio.__init__ class_name a) = inr e
               /\ exc_class e = "AttributeError") /\
  (truthy (i_name a) = false ->
     Aio.name (Aio.__init__ class_name a) = Some class_name /\
     exists d, Aio.format (Aio.__init__ class_name a) = inl d
               /\ dict_get "name" d = Some (VStr class_name)).
Proof.
  unfold Aio.format, Aio.__init__. simpl.
  split; intros H; rewrite H; simpl.
  - split; [reflexivity|]. eexists. split; reflexivity.
  - split; [reflexivity|]. eexists. split; reflexivity.
Qed.

Lemma aio_given_name_is_lost_witness :
  truthy (i_name (Demo.named "Disk" None)) = true /\
  Aio.name (Aio.__init__ "DiskModule" (Demo.named "Disk" None)) = None /\
  truthy (i_name Aio.init_defaults) = false /\
  Aio.name (Aio.__init__ "DiskModule" Aio.init_defaults) = Some "DiskModule".
Proof.
  destruct (aio_given_name_is_lost "DiskModule" (Demo.named "Disk" None))
    as (Hgiven & _).
  destruct (aio_given_name_is_lost "DiskModule" Aio.init_defaults)
    as (_ & Hnone).
  split; [reflexivity|]. split; [exact (proj1 (Hgiven eq_refl))|].
  split; [reflexivity|]. exact (proj1 (Hnone eq_refl)).
Defined.

Lemma aio_format_keys (m : Aio.Module_) (d : list (string * pyval))
    (k : string) :
  Aio.format m = inl d -> In k (keys d) ->
  In k ["name"; "instance"; "color"; "background"; "border"; "border_top";
        "border_right"; "border_left"; "min_width"; "align"; "urgent";
        "separator"; "separator_block_width"; "full_text"; "short_text"].
Proof.
  unfold Aio.format. destruct (Aio.name m) as [n|]; [|discriminate].
  match goal with
  | |- inl (drop_none ?s) = _ -> _ => remember s as snapshot eqn:Hs
  end.
  intros Hd HIn. injection Hd as Hd. subst d.
  apply drop_none_keys in HIn. subst snapshot. exact HIn.
Qed.

(** X11: whatever a module was constructed with, the dictionary [format]
    returns never has the key [border_bottom] and never has the key
    [markup]: the first is stored and left out of [format], the second is
    not even stored.  It always has [full_text], and no key twice. *)
Theorem aio_format_leaves_out (m : Aio.Module_) (d : list (string * pyval))
    (Hformat : Aio.format m = inl d) :
  ~ In "border_bottom" (keys d) /\
  ~ In "markup" (keys d) /\
  dict_get "full_text" d = Some (VStr (Aio.full_text m)) /\
  NoDup (keys d).
Proof.
  split; [|split].
  - intros HIn. apply (aio_format_keys m d _ Hformat) in HIn.
    simpl in HIn. intuition discriminate.
  - intros HIn. apply (aio_format_keys m d _ Hformat) in HIn.
    simpl in HIn. intuition discriminate.
  - unfold Aio.format in Hformat.
    destruct (Aio.name m) as [n|]; [|discriminate].
    match type of Hformat with
    | inl (drop_none ?s) = _ => remember s as snapshot eqn:Hs
    end.
    injection Hformat as Hd. subst d.
    assert (Hnd : NoDup (keys snapshot))
      by (subst snapshot; apply nodupb_NoDup; reflexivity).
    split.
    + rewrite drop_none_get by exact Hnd. subst snapshot. reflexivity.
    + now apply drop_none_NoDup.
Qed.

Lemma aio_format_leaves_out_witness :
  let a := mkInitArgs None None None None None None None
                      (Some "#FF0000") None None None (Some false) (Some true)
                      None (Some Markup.PANGO) in
  let m := Aio.__init__ "ClockModule" a in
  Aio.border_bottom m = Some "#FF0000" /\
  exists d, Aio.format m = inl d /\ ~ In "border_bottom" (keys d)
            /\ ~ In "markup" (keys d).
Proof.
  intros a m.
  split; [reflexivity|].
  eexists. split; [reflexivity|].
  destruct (aio_format_leaves_out m _ eq_refl) as (Hb & Hm & _).
  split; [exact Hb|exact Hm].
Defined.

Lemma aio_formats_raise {W : Type} (ms : list (Aio.Block W)) :
  Exists (fun b => Aio.name (Aio.attrs b) = None) ms ->
  exists e, Aio.formats ms = inr e.
Proof.
  intros H. induction H as [b ms Hb|b ms _ (e & He)]; simpl.
  - unfold Aio.format. rewrite Hb. now eexists.
  - destruct (Aio.format (Aio.attrs b)) as [d|e0]; [|now eexists].
    rewrite He. now eexists.
Qed.

(** X12: one registered module without the attribute [name], as every
    module constructed with a name is, ends the writer at its first tick:
    nothing is written for any module, the task of the writer finishes,
    and no later tick changes anything. *)
Theorem aio_writer_ends_on_missing_name {W : Type}
    (r : Aio.Runner W) (rest : list status) (ticks : nat)
    (Hmissing : Exists (fun b => Aio.name (Aio.attrs b) = None) (Aio.modules r))
    (Hwriter : Aio.tasks r = Pending :: rest) :
  Aio.stdout (Aio.write_results r) = Aio.stdout r /\
  Aio.tasks (Aio.write_results r) = Finished :: rest /\
  Nat.iter ticks Aio.write_results (Aio.write_results r) = Aio.write_results r.
Proof.
  destruct (aio_formats_raise _ Hmissing) as (e & He).
  assert (Hw : Aio.write_results r
               = Aio.mkRunner (Aio.sleep r) (Aio.modules r) (Finished :: rest)
                              (Aio.stdout r)).
  { unfold Aio.write_results. now rewrite Hwriter, He. }
  split; [now rewrite Hw|]. split; [now rewrite Hw|].
  rewrite Hw. induction ticks as [|n IH]; simpl; [reflexivity|].
  now rewrite IH.
Qed.

Lemma aio_writer_ends_on_missing_name_witness :
  let idle : Aio.coroutine nat := fun w m => (w, m, Suspended) in
  let ok := Aio.mkBlock (Aio.__init__ "ClockModule" Aio.init_defaults) idle in
  let named := Aio.mkBlock
                 (Aio.__init__ "DiskModule" (Demo.named "Disk" None)) idle in
  let r := Aio.register_module
             (Aio.register_module (Aio.Runner_init 1) ok) named in
  Aio.tasks r = [Pending; Pending; Pending] /\
  Aio.tasks (Aio.write_results r) = [Finished; Pending; Pending] /\
  Aio.stdout (Nat.iter 3 Aio.write_results r) = "".
Proof.
  intros idle ok named r.
  assert (Hm : Exists (fun b => Aio.name (Aio.attrs b) = None) (Aio.modules r))
    by (right; left; reflexivity).
  destruct (aio_writer_ends_on_missing_name r [Pending; Pending] 2 Hm eq_refl)
    as (Hout & Ht & Hlater).
  split; [reflexivity|]. split; [exact Ht|].
  change (Nat.iter 3 Aio.write_results r)
    with (Nat.iter 2 Aio.write_results (Aio.write_results r)).
  rewrite Hlater. exact Hout.
Defined.

Lemma aio_register_all {W : Type} (bs : list (Aio.Block W)) (r : Aio.Runner W) :
  let r' := fold_left Aio.register_module bs r in
  Aio.modules r' = (Aio.modules r ++ bs)%list /\
  Aio.tasks r' = (Aio.tasks r ++ map (fun _ => Pending) bs)%list /\
  Aio.stdout r' = Aio.stdout r.
Proof.
  revert r. induction bs as [|b bs IH]; intros r; simpl.
  - now rewrite !app_nil_r.
  - destruct (IH (Aio.register_module r b)) as (Hm & Ht & Hs).
    rewrite Hm, Ht, Hs. simpl. now rewrite <- !app_assoc.
Qed.

Lemma aio_formats_length {W : Type} (ms : list (Aio.Block W))
    (out : list string) :
  Aio.formats ms = inl out -> length out = length ms.
Proof.
  revert out. induction ms as [|b ms IH]; intros out; simpl.
  - now intros [= <-].
  - destruct (Aio.format (Aio.attrs b)); [|discriminate].
    destruct (Aio.formats ms) as [out'|]; [|discriminate].
    intros [= <-]. simpl. f_equal. now apply IH.
Qed.

(** X13: this runner refuses no registration.  After registering any list
    of modules on a new runner, the same module twice included, the
    modules are that list, in that order and with its repetitions, and
    there is the task of the writer and one task per registration; a tick
    whose [format] calls all return writes one line with one object per
    registration. *)
Theorem aio_register_keeps_everything {W : Type}
    (sleep : Z) (bs : list (Aio.Block W)) (out : list string)
    (Hformats : Aio.formats bs = inl out) :
  let r := fold_left Aio.register_module bs (Aio.Runner_init sleep) in
  Aio.modules r = bs /\
  Aio.tasks r = Pending :: map (fun _ => Pending) bs /\
  length out = length bs /\
  Aio.stdout (Aio.write_results r) = "[" ++ join "," out ++ "]," ++ nl.
Proof.
  intros r.
  destruct (aio_register_all bs (Aio.Runner_init sleep)) as (Hm & Ht & Hs).
  fold r in Hm, Ht, Hs. simpl in Hm, Ht, Hs.
  split; [exact Hm|]. split; [exact Ht|].
  split; [now apply aio_formats_length|].
  unfold Aio.write_results. rewrite Ht, Hm, Hformats. simpl. now rewrite Hs.
Qed.

Lemma aio_register_keeps_everything_witness :
  let idle : Aio.coroutine nat := fun w m => (w, m, Suspended) in
  let b := Aio.mkBlock (Aio.__init__ "ClockModule" Aio.init_defaults) idle in
  let r := fold_left Aio.register_module [b; b] (Aio.Runner_init 1) in
  Aio.modules r = [b; b] /\
  exists object,
    Aio.stdout (Aio.write_results r)
    = "[" ++ object ++ "," ++ object ++ "]," ++ nl.
Proof.
  intros idle b r.
  destruct (aio_register_keeps_everything 1 [b; b] _ eq_refl)
    as (Hm & _ & _ & Hs).
  split; [exact Hm|].
  exists (json_dumps match Aio.format (Aio.attrs b) with
                     | inl d => d
                     | inr _ => []
                     end).
  fold r in Hs. rewrite Hs. reflexivity.
Defined.

(** X14: when [run] raises in the loop of a polling module that has its
    name, the loop sets [urgent] and puts the name and the exception in
    [full_text], touches no other attribute, and returns.  When the
    attribute [name] is missing, [urgent] is set all the same, but the text
    cannot be formatted: [full_text] stays what [run] left and the loop
    ends with [AttributeError] instead. *)
Theorem aio_loop_failure {W : Type} (run : Aio.code W) (w w' : W)
    (m m' : Aio.Module_) (e : Exception)
    (Hraise : run w m = (w', m', Some e)) :
  let '(w1, m1, o) := Aio.PollingModule_loop run w m in
  w1 = w' /\
  Aio.urgent m1 = Some true /\
  Aio.set_full_text (Aio.set_urgent m1 (Aio.urgent m')) (Aio.full_text m') = m' /\
  match Aio.name m' with
  | Some n =>
      o = Returned /\
      Aio.full_text m1 = "Exception in " ++ n ++ ": " ++ exc_str e
  | None =>
      Aio.full_text m1 = Aio.full_text m' /\
      exists e', o = Raised e' /\ exc_class e' = "AttributeError"
  end.
Proof.
  unfold Aio.PollingModule_loop. rewrite Hraise. simpl.
  destruct m' as [c n i co bg b bt br bb bl mw al u sp sw st ft]. simpl.
  destruct n as [n|]; simpl.
  - repeat split.
  - repeat split. eexists. split; reflexivity.
Qed.

Lemma aio_loop_failure_witness :
  let failing : Aio.code nat :=
    fun w m => (S w, m, Some (mkException "OSError" "sensor unreachable")) in
  let named := Aio.__init__ "DiskModule" (Demo.named "Disk" None) in
  let unnamed := Aio.__init__ "DiskModule" Aio.init_defaults in
  snd (Aio.PollingModule_loop failing 0 unnamed) = Returned /\
  Aio.full_text (snd (fst (Aio.PollingModule_loop failing 0 unnamed)))
    = "Exception in DiskModule: sensor unreachable" /\
  Aio.full_text (snd (fst (Aio.PollingModule_loop failing 0 named))) = "" /\
  Aio.urgent (snd (fst (Aio.PollingModule_loop failing 0 named))) = Some true.
Proof.
  intros failing named unnamed.
  pose proof (aio_loop_failure failing 0 1 unnamed unnamed
                (mkException "OSError" "sensor unreachable") eq_refl) as Hu.
  pose proof (aio_loop_failure failing 0 1 named named
                (mkException "OSError" "sensor unreachable") eq_refl) as Hn.
  destruct (Aio.PollingModule_loop failing 0 unnamed) as [[w1 m1] o1].
  destruct (Aio.PollingModule_loop failing 0 named) as [[w2 m2] o2].
  simpl in Hu, Hn.
  destruct Hu as (_ & _ & _ & Ho & Ht).
  destruct Hn as (_ & Hurgent & _ & Htext & _).
  simpl. repeat split; assumption.
Defined.

(** * Properties of the psutil and pulsectl blocks *)














(** X16: [_find_interface] returns the first interface, in the order of
    the dictionary, that is up and whose name the pattern matches: every
    interface before it is down or does not match.  It returns [None]
    exactly when no interface is both up and matched. *)
Theorem find_interface_is_first_match (matches : string -> bool)
    (interfaces : list (string * bool)) :
  match NetworkSpeedBlock._find_interface matches interfaces with
  | Some interface =>
      exists before after,
        interfaces = (before ++ (interface, true) :: after)%list /\
        matches interface = true /\
        Forall (fun i => snd i && matches (fst i) = false) before
  | None => Forall (fun i => snd i && matches (fst i) = false) interfaces
  end.
Proof.
  induction interfaces as [|[i up] rest IH]; simpl; [constructor|].
  destruct (up && matches i) eqn:E.
  - apply andb_true_iff in E as (-> & Hm).
    exists [], rest. repeat split; [exact Hm|constructor].
  - destruct (NetworkSpeedBlock._find_interface matches rest) as [j|].
    + destruct IH as (before & after & -> & Hm & Hb).
      exists ((i, up) :: before), after. repeat split; [exact Hm|].
      constructor; [exact E|exact Hb].
    + constructor; [exact E|exact IH].
Qed.

Lemma first_named_spec (default : string) (sinks : list (Z * string)) :
  match PulseAudioModule.first_named default sinks with
  | Some index =>
      exists before after,
        sinks = (before ++ (index, default) :: after)%list /\
        Forall (fun s => snd s <> default) before
  | None => Forall (fun s => snd s <> default) sinks
  end.
Proof.
  induction sinks as [|[i n] rest IH]; simpl; [constructor|].
  destruct (String.eqb_spec n default) as [->|Hne].
  - exists [], rest. split; [reflexivity|constructor].
  - destruct (PulseAudioModule.first_named default rest) as [j|].
    + destruct IH as (before & after & -> & Hb).
      exists ((i, n) :: before), after. split; [reflexivity|].
      constructor; [exact Hne|exact Hb].
    + constructor; [exact Hne|exact IH].
Qed.

(** X17: [_find_sink_index] raises [AssertionError] on an empty list of
    sinks and on no other.  Otherwise the index it chooses is that of the
    first sink whose name is the default sink name; when no sink has that
    name it is [0], whatever the indices of the sinks are, and so not
    necessarily the index of any sink of the list. *)
Theorem find_sink_index_fallback (default : string)
    (sinks : list (Z * string)) :
  (sinks = [] <->
   exists e, PulseAudioModule._find_sink_index default sinks = inr e) /\
  (sinks <> [] ->
   exists index,
     PulseAudioModule._find_sink_index default sinks = inl index /\
     ((exists before after,
         sinks = (before ++ (index, default) :: after)%list /\
         Forall (fun s => snd s <> default) before)
      \/ (Forall (fun s => snd s <> default) sinks /\ index = 0%Z))) /\
  PulseAudioModule._find_sink_index "hdmi" [(3%Z, "usb"); (5%Z, "analog")]
    = inl 0%Z /\
  PulseAudioModule._find_sink_index default []
    = inr (mkException "AssertionError" "No sinks found").
Proof.
  split; [|split; [|split; [|reflexivity]]].
  - split.
    + intros ->. now eexists.
    + intros (e & He). destruct sinks; [reflexivity|discriminate].
  - intros Hne. destruct sinks as [|s sinks]; [contradiction|].
    unfold PulseAudioModule._find_sink_index.
    pose proof (first_named_spec default (s :: sinks)) as Hspec.
    destruct (PulseAudioModule.first_named default (s :: sinks)) as [i|].
    + exists i. split; [reflexivity|]. now left.
    + exists 0%Z. split; [reflexivity|]. right. now split.
  - reflexivity.
Qed.

Lemma find_sink_index_fallback_witness :
  let sinks := [(3%Z, "usb"); (5%Z, "analog")] in
  sinks <> [] /\
  ~ In 0%Z (map fst sinks) /\
  PulseAudioModule._find_sink_index "hdmi" sinks = inl 0%Z /\
  PulseAudioModule._find_sink_index "analog" sinks = inl 5%Z.
Proof.
  intros sinks.
  assert (Hne : sinks <> []) by discriminate.
  destruct (find_sink_index_fallback "analog" sinks)
    as (_ & Hsome & Hzero & _).
  destruct (Hsome Hne) as (index & Hidx & _).
  split; [exact Hne|]. split.
  - simpl. intros [H|[H|[]]]; discriminate.
  - split; [exact Hzero|reflexivity].
Defined.
